(** * scala-chromatica: the coolors.co palette parser

    A shallow embedding of [build_scripts/coolors_parser.py] and the
    properties of its two functions, [parse_coolors_xml] (the palette
    extractor) and [create_colormap_json] (the colormap builder), together
    with the driver [main].

    Python values are modelled as follows.
    - [str] is [string], a sequence of bytes: the model reads a text as
      ASCII, so a digit or a space outside ASCII is not one for [int]; a
      value that may be [None] is an [option].
    - [int] is [Z] (unbounded); the limit some interpreters put on the
      number of digits [int] accepts is not modelled.
    - an XML document is the tree [ET.fromstring] returns for it; the parser
      itself belongs to the Python library and is a parameter.
    - an exception is a value of [exception]; a computation that may raise
      returns [exception + A], [inl] for the raised exception.
    - [float] is [Float.t], the finite non-negative binary64 numbers, which
      are the only ones the program computes; the operations are the
      correctly rounded ones of IEEE 754 (round to nearest, ties to even). *)

From Stdlib Require Import ZArith List String Ascii Bool Lia DecimalString.
From Stdlib Require Import Floats.SpecFloat.
Import ListNotations.
Set Warnings "-register-all".
Local Open Scope string_scope.
Local Open Scope Z_scope.

(** ** Exceptions and the error monad *)

Inductive exception : Type :=
| ParseError (message : string)        (* xml.etree.ElementTree.ParseError *)
| TypeError (message : string)
| ValueError (message : string)
| ZeroDivisionError (message : string)
| OverflowError (message : string).

(** The class of an exception, which is what an [except] clause tests. *)
Inductive exception_class : Type :=
| ParseErrorClass | TypeErrorClass | ValueErrorClass
| ZeroDivisionErrorClass | OverflowErrorClass.

Definition class_of (e : exception) : exception_class :=
  match e with
  | ParseError _ => ParseErrorClass
  | TypeError _ => TypeErrorClass
  | ValueError _ => ValueErrorClass
  | ZeroDivisionError _ => ZeroDivisionErrorClass
  | OverflowError _ => OverflowErrorClass
  end.

(** [str(e)] for the exceptions above: the message they were built with. *)
Definition message_of (e : exception) : string :=
  match e with
  | ParseError m | TypeError m | ValueError m
  | ZeroDivisionError m | OverflowError m => m
  end.

Definition result (A : Type) : Type := (exception + A)%type.

Definition ret {A : Type} (a : A) : result A := inr a.
Definition raise {A : Type} (e : exception) : result A := inl e.

Definition bind {A B : Type} (c : result A) (k : A -> result B) : result B :=
  match c with
  | inl e => inl e
  | inr a => k a
  end.

Notation "x <- c ;; k" := (bind c (fun x => k))
  (at level 61, c at next level, right associativity).

(** ** Python floats *)

Module Float.

(** A finite non-negative binary64 number [mant * 2 ^ expo], kept in the
    canonical form of the format: [2^52 <= mant < 2^53] with
    [-1074 <= expo <= 971], or [mant < 2^52] with [expo = -1074]. *)
Record t : Type := mk { mant : Z; expo : Z }.

Definition zero : t := mk 0 (-1074).
Definition one : t := mk (2 ^ 52) (-52).
Definition half : t := mk (2 ^ 52) (-53).

(** The value scaled by [2 ^ 1074], an integer for every canonical float. *)
Definition scaled (x : t) : Z := mant x * 2 ^ (expo x + 1074).

Definition le (x y : t) : Prop := scaled x <= scaled y.
Definition leb (x y : t) : bool := scaled x <=? scaled y.

Definition canonical (x : t) : Prop :=
  (2 ^ 52 <= mant x < 2 ^ 53 /\ -1074 <= expo x <= 971) \/
  (0 <= mant x < 2 ^ 52 /\ expo x = -1074).

(** [x * 2 ^ n] for [n >= 0] and [x] otherwise: the numerator and the
    denominator of a quotient by a power of two of either sign. *)
Definition scale2 (x n : Z) : Z := x * 2 ^ (Z.max 0 n).

(** The integer nearest to [n / d] for [d > 0], ties to the even one. *)
Definition rne (n d : Z) : Z :=
  let q := n / d in
  let r := n mod d in
  match 2 * r ?= d with
  | Lt => q
  | Gt => q + 1
  | Eq => if Z.even q then q else q + 1
  end.

(** [floor (log2 (a / b))] for [a, b > 0]. *)
Definition floor_log2_ratio (a b : Z) : Z :=
  let k := Z.log2 a - Z.log2 b in
  if scale2 b k <=? scale2 a (- k) then k else k - 1.

(** The binary64 number nearest to the rational [a / b], for [a >= 0] and
    [b > 0]; [OverflowError] when it is beyond the largest finite one. *)
Definition of_ratio (a b : Z) : result t :=
  if a =? 0 then ret zero
  else
    let k := floor_log2_ratio a b in
    let e := Z.max (-1074) (k - 52) in
    let m := rne (scale2 a (- e)) (scale2 b e) in
    let '(m, e) := if m =? 2 ^ 53 then (2 ^ 52, e + 1) else (m, e) in
    if 971 <? e
    then raise (OverflowError "integer division result too large for a float")
    else ret (mk m e).

(** [a / b] on non-negative Python integers: true division, correctly
    rounded whatever the size of the operands. *)
Definition int_truediv (a b : N) : result t :=
  if (b =? 0)%N then raise (ZeroDivisionError "division by zero")
  else of_ratio (Z.of_N a) (Z.of_N b).

(** [round(x, ndigits)] for [ndigits >= 0]: the exact value of [x] is
    rounded to [ndigits] decimal places, ties to even, and the decimal
    numeral obtained is converted back to the nearest float. Beyond 323
    places every float rounds to itself. *)
Definition round (x : t) (ndigits : N) : result t :=
  if (323 <? ndigits)%N then ret x
  else
    let p := 10 ^ Z.of_N ndigits in
    let k := rne (scale2 (mant x * p) (expo x)) (scale2 1 (- expo x)) in
    match of_ratio k p with
    | inl _ => raise (OverflowError "rounded value too large to represent")
    | inr y => ret y
    end.

(** The same number in the representation of the IEEE 754 specification
    of the standard library. *)
Definition to_spec (x : t) : spec_float :=
  match mant x with
  | Zpos m => S754_finite false m (expo x)
  | _ => S754_zero false
  end.

Definition spec_eqb (x y : spec_float) : bool :=
  match x, y with
  | S754_zero s, S754_zero s' => Bool.eqb s s'
  | S754_finite s m e, S754_finite s' m' e' =>
      Bool.eqb s s' && Pos.eqb m m' && Z.eqb e e'
  | _, _ => false
  end.

(** [of_ratio a b] is the quotient the IEEE 754 division of the standard
    library gives for the floats of [a] and [b]. *)
Definition agrees_with_SFdiv (a b : Z) : bool :=
  match of_ratio a b with
  | inr x =>
      spec_eqb (to_spec x)
               (SFdiv 53 1024 (binary_normalize 53 1024 a 0 false)
                              (binary_normalize 53 1024 b 0 false))
  | inl _ => false
  end.

(** Two quantities the proofs name. [shift n] is the shift applied to the
    numerator of a quotient whose exponent is [- n]: the 53 bits of a
    normal number, capped at the subnormal range. [ten_thousandths x] is
    the number of ten-thousandths nearest to [x]. *)
Definition shift (n : Z) : Z := Z.min 1074 (n + 52).

Definition ten_thousandths (x : t) : Z :=
  rne (mant x * 10 ^ 4) (2 ^ (- expo x)).

End Float.

(** ** Python builtins on strings *)

Module Py.

(** [str(x)] for a value that is a string or [None], as an f-string
    interpolates it. *)
Definition str (x : option string) : string :=
  match x with
  | Some s => s
  | None => "None"
  end.

Definition quote : ascii := ascii_of_nat 39.
Definition dquote : ascii := ascii_of_nat 34.
Definition backslash : ascii := ascii_of_nat 92.

Fixpoint contains (c : ascii) (s : string) : bool :=
  match s with
  | EmptyString => false
  | String c' s' => Ascii.eqb c c' || contains c s'
  end.

Definition hex_digit (n : nat) : ascii :=
  if (n <? 10)%nat then ascii_of_nat (48 + n) else ascii_of_nat (87 + n).

(** [repr(s)] for a string: quoted, with the quote character, the
    backslash and the control characters escaped. *)
Fixpoint repr_body (q : ascii) (s : string) : string :=
  match s with
  | EmptyString => EmptyString
  | String c s' =>
      let n := nat_of_ascii c in
      (if Ascii.eqb c q || Ascii.eqb c backslash
       then String backslash (String c EmptyString)
       else if (n =? 9)%nat then String backslash "t"
       else if (n =? 10)%nat then String backslash "n"
       else if (n =? 13)%nat then String backslash "r"
       else if (n <? 32)%nat || (n =? 127)%nat
       then String backslash
              (String "x" (String (hex_digit (n / 16))
                                  (String (hex_digit (n mod 16)) EmptyString)))
       else String c EmptyString)
      ++ repr_body q s'
  end.

Definition repr (s : string) : string :=
  let q := if contains quote s && negb (contains dquote s)
           then dquote else quote in
  String q (repr_body q s ++ String q EmptyString).

(** The white space [int] skips around a numeral. *)
Definition is_space (c : ascii) : bool :=
  let n := nat_of_ascii c in
  (n =? 32)%nat || ((9 <=? n)%nat && (n <=? 13)%nat).

Definition digit_value (c : ascii) : option Z :=
  let n := nat_of_ascii c in
  if (48 <=? n)%nat && (n <=? 57)%nat then Some (Z.of_nat (n - 48)) else None.

Fixpoint skip_space (s : string) : string :=
  match s with
  | String c s' => if is_space c then skip_space s' else s
  | EmptyString => s
  end.

(** Decimal digits, single underscores allowed between them: the value
    read and what follows the numeral, or [None] when there is no digit
    or an underscore is doubled or trailing. *)
Fixpoint scan_digits (s : string) (acc : Z) (after_underscore : bool)
         (digits : nat) : option (Z * string) :=
  let stop := if after_underscore || (digits =? 0)%nat
              then None else Some (acc, s) in
  match s with
  | EmptyString => stop
  | String c s' =>
      if Ascii.eqb c "_"
      then if after_underscore then None
           else scan_digits s' acc true digits
      else match digit_value c with
           | Some d => scan_digits s' (10 * acc + d) false (S digits)
           | None => stop
           end
  end.

(** The integer a base-10 literal denotes: optional white space, an
    optional sign, the digits, optional white space, and nothing else. *)
Definition parse_int (s : string) : option Z :=
  let s1 := skip_space s in
  let '(negative, s2) :=
    match s1 with
    | String "-" s' => (true, s')
    | String "+" s' => (false, s')
    | _ => (false, s1)
    end in
  match s2 with
  | String "_" _ => None
  | _ =>
      match scan_digits s2 0 false 0 with
      | Some (v, s3) =>
          match skip_space s3 with
          | EmptyString => Some (if negative then - v else v)
          | _ => None
          end
      | None => None
      end
  end.

(** [int(x)] for [x] a string or [None]. *)
Definition int (x : option string) : result Z :=
  match x with
  | None =>
      raise (TypeError
        "int() argument must be a string, a bytes-like object or a real number, not 'NoneType'")
  | Some s =>
      match parse_int s with
      | Some v => ret v
      | None =>
          raise (ValueError
            ("invalid literal for int() with base 10: " ++ repr s))
      end
  end.

End Py.

(** ** xml.etree.ElementTree *)

Module ET.

(** An element of a parsed document: its tag, its attributes and its child
    elements in document order. *)
Inductive Element : Type :=
| mkElement (tag : string) (attrib : list (string * string))
            (children : list Element).

Definition tag (e : Element) : string :=
  match e with mkElement t _ _ => t end.
Definition attrib (e : Element) : list (string * string) :=
  match e with mkElement _ a _ => a end.
Definition children (e : Element) : list Element :=
  match e with mkElement _ _ c => c end.

(** [elem.get(key)]: the attribute's value, [None] when it is absent. *)
Definition get (e : Element) (key : string) : option string :=
  match find (fun kv => String.eqb (fst kv) key) (attrib e) with
  | Some kv => Some (snd kv)
  | None => None
  end.

(** [elem.findall(name)] for a plain tag name: the direct children with
    that tag, in document order. *)
Definition findall (e : Element) (name : string) : list Element :=
  filter (fun c => String.eqb (tag c) name) (children e).

End ET.

(** ** The data model *)

Module ColorRecord.
Record t : Type :=
  mk { name : option string; hex : option string; r : Z; g : Z; b : Z }.
End ColorRecord.

Module Color.
Record t : Type := mk { r : Z; g : Z; b : Z }.
End Color.

Module GradientStop.
Record t : Type := mk { position : Float.t; color : Color.t }.
End GradientStop.

Module Colormap.
Record t : Type := mk { name : option string; stops : list GradientStop.t }.
End Colormap.

(** ** parse_coolors_xml *)

Section Extractor.

(** [ET.fromstring], the XML parser of the Python library: the root
    element of a well-formed document, [ParseError] otherwise. *)
Variable fromstring : string -> result ET.Element.

(** The body of the [for] loop over the [color] elements, [colors] being
    the list built so far. *)
Fixpoint parse_colors_loop (elems : list ET.Element)
         (colors : list ColorRecord.t) : result (list ColorRecord.t) :=
  match elems with
  | [] => ret colors
  | color_elem :: rest =>
      let name := ET.get color_elem "name" in
      let hex := ET.get color_elem "hex" in
      r <- Py.int (ET.get color_elem "r") ;;
      g <- Py.int (ET.get color_elem "g") ;;
      b <- Py.int (ET.get color_elem "b") ;;
      parse_colors_loop rest (colors ++ [ColorRecord.mk name hex r g b])
  end.

Definition parse_coolors_xml (xml_content : string)
  : result (list ColorRecord.t) :=
  root <- fromstring xml_content ;;
  parse_colors_loop (ET.findall root "color") [].

End Extractor.

(** [extracted elem color]: the record is the one the loop body builds from
    the element, every [int] call having succeeded. *)
Definition extracted (color_elem : ET.Element) (color : ColorRecord.t) : Prop :=
  ColorRecord.name color = ET.get color_elem "name" /\
  ColorRecord.hex color = ET.get color_elem "hex" /\
  Py.int (ET.get color_elem "r") = inr (ColorRecord.r color) /\
  Py.int (ET.get color_elem "g") = inr (ColorRecord.g color) /\
  Py.int (ET.get color_elem "b") = inr (ColorRecord.b color).

(** The exceptions the [int] calls of the loop would raise on an element,
    and on a list of elements, in the order the loop reaches them. *)
Definition attribute_errors (color_elem : ET.Element) : list exception :=
  flat_map (fun key => match Py.int (ET.get color_elem key) with
                       | inl e => [e]
                       | inr _ => []
                       end) ["r"; "g"; "b"].

Definition int_errors (elems : list ET.Element) : list exception :=
  flat_map attribute_errors elems.

(** ** create_colormap_json *)

(** The body of the [for i, color in enumerate(colors)] loop, [stops] being
    the list built so far. *)
Fixpoint stops_loop (num_colors : nat) (i : nat) (colors : list ColorRecord.t)
         (stops : list GradientStop.t) : result (list GradientStop.t) :=
  match colors with
  | [] => ret stops
  | color :: rest =>
      position <- (if (1 <? num_colors)%nat
                   then Float.int_truediv (N.of_nat i) (N.of_nat (num_colors - 1))
                   else ret Float.zero) ;;
      rounded <- Float.round position 4 ;;
      stops_loop num_colors (S i) rest
        (stops ++ [GradientStop.mk rounded
                     (Color.mk (ColorRecord.r color) (ColorRecord.g color)
                               (ColorRecord.b color))])
  end.

Definition create_colormap_json (colors : list ColorRecord.t)
           (name : option string) : result Colormap.t :=
  match colors with
  | [] => raise (ValueError "No colors provided")
  | first :: others =>
      let name :=
        match name with
        | None =>
            if (2 <=? List.length colors)%nat
            then (* f"{colors[0]['name']} {colors[-1]['name']}" *)
              Some (Py.str (ColorRecord.name first) ++ " "
                    ++ Py.str (ColorRecord.name (last others first)))
            else ColorRecord.name first
        | Some _ => name
        end in
      stops <- stops_loop (List.length colors) 0 colors [] ;;
      ret (Colormap.mk name stops)
  end.

(** The position of stop [i] as the loop body computes it. *)
Definition stop_position (num_colors i : nat) : result Float.t :=
  position <- (if (1 <? num_colors)%nat
               then Float.int_truediv (N.of_nat i) (N.of_nat (num_colors - 1))
               else ret Float.zero) ;;
  Float.round position 4.

(** The colour triple the loop body copies into a stop. *)
Definition rgb (color : ColorRecord.t) : Color.t :=
  Color.mk (ColorRecord.r color) (ColorRecord.g color) (ColorRecord.b color).

(** A list of positions that never decreases from one index to the next. *)
Definition nondecreasing (positions : list Float.t) : Prop :=
  forall i j p q, (i <= j)%nat ->
    nth_error positions i = Some p -> nth_error positions j = Some q ->
    Float.le p q.

(** Three colours used as a running example. *)
Definition red : ColorRecord.t :=
  ColorRecord.mk (Some "A") (Some "#FF0000") 255 0 0.
Definition green : ColorRecord.t :=
  ColorRecord.mk (Some "B") (Some "#00FF00") 0 255 0.
Definition blue : ColorRecord.t :=
  ColorRecord.mk (Some "C") (Some "#0000FF") 0 0 255.

(** The same three colours as a parsed document, and its text. *)
Definition color_elem (name hex r g b : string) : ET.Element :=
  ET.mkElement "color"
    [("name", name); ("hex", hex); ("r", r); ("g", g); ("b", b)] [].

Definition palette3 : ET.Element :=
  ET.mkElement "palette" []
    [color_elem "A" "#FF0000" "255" "0" "0";
     color_elem "B" "#00FF00" "0" "255" "0";
     color_elem "C" "#0000FF" "0" "0" "255"].

Definition palette3_xml : string :=
  "<palette>" ++
  "<color name='A' hex='#FF0000' r='255' g='0' b='0'/>" ++
  "<color name='B' hex='#00FF00' r='0' g='255' b='0'/>" ++
  "<color name='C' hex='#0000FF' r='0' g='0' b='255'/>" ++
  "</palette>".

Definition nameless : ColorRecord.t :=
  ColorRecord.mk None (Some "#000000") 0 0 0.

(** A stand-in for the XML parser that knows the documents of a table and
    rejects every other text. *)
Definition parser_of (table : list (string * ET.Element))
  : string -> result ET.Element :=
  fun xml_content =>
    match find (fun entry => String.eqb (fst entry) xml_content) table with
    | Some entry => ret (snd entry)
    | None => raise (ParseError "syntax error: line 1, column 0")
    end.

(** A colour whose channels are integers outside 0..255. *)
Definition palette_out_of_range : ET.Element :=
  ET.mkElement "palette" [] [color_elem "Hot" "#FF0000" "300" "-1" "256"].

Definition palette_out_of_range_xml : string :=
  "<palette><color name='Hot' hex='#FF0000' r='300' g='-1' b='256'/></palette>".

(** A colour whose red channel is not a number, first in its document. *)
Definition palette_bad_red : ET.Element :=
  ET.mkElement "palette" [] [color_elem "A" "#FF0000" "blue" "0" "0"].

Definition palette_bad_red_xml : string :=
  "<palette><color name='A' hex='#FF0000' r='blue' g='0' b='0'/></palette>".

(** The same text in the blue channel of the second colour. *)
Definition palette_bad_blue : ET.Element :=
  ET.mkElement "palette" []
    [color_elem "A" "#FF0000" "255" "0" "0";
     color_elem "B" "#0000FF" "0" "0" "blue"].

Definition palette_bad_blue_xml : string :=
  "<palette><color name='A' hex='#FF0000' r='255' g='0' b='0'/>" ++
  "<color name='B' hex='#0000FF' r='0' g='0' b='blue'/></palette>".

(** A document with no colour at all. *)
Definition palette_empty : ET.Element :=
  ET.mkElement "palette" [] [ET.mkElement "title" [] []].

Definition palette_empty_xml : string := "<palette><title/></palette>".

(** The parser of the examples: it knows the five documents above. *)
Definition example_fromstring : string -> result ET.Element :=
  parser_of [(palette3_xml, palette3);
             (palette_out_of_range_xml, palette_out_of_range);
             (palette_bad_red_xml, palette_bad_red);
             (palette_bad_blue_xml, palette_bad_blue);
             (palette_empty_xml, palette_empty)].

(** ** main *)

(** What [main] writes to [args.output]. *)
Inductive output_item : Type :=
| JsonDump (colormap : Colormap.t) (pretty : bool)
| Text (s : string).

Record Args : Type :=
  mkArgs { input : string;              (* what [args.input.read()] returns *)
           output_is_stdout : bool;
           name : option string;
           pretty : bool }.

Record Run : Type :=
  mkRun { output : list output_item;
          stderr : list string;
          exit_status : Z }.

Definition nat_to_string (n : nat) : string :=
  DecimalString.NilZero.string_of_uint (Nat.to_uint n).

Definition newline : string := String (ascii_of_nat 10) EmptyString.

(** The check mark U+2713 that opens the summary line, in UTF-8. *)
Definition check_mark : string :=
  String (ascii_of_nat 226)
    (String (ascii_of_nat 156) (String (ascii_of_nat 147) EmptyString)).

Section Main.

Variable fromstring : string -> result ET.Element.

(** The two [except] clauses: the message on [stderr], then [sys.exit(1)]. *)
Definition report (e : exception) : Run :=
  match class_of e with
  | ParseErrorClass => mkRun [] ["Error parsing XML: " ++ message_of e] 1
  | _ => mkRun [] ["Error: " ++ message_of e] 1
  end.

Definition main (args : Args) : Run :=
  let xml_content := input args in
  match parse_coolors_xml fromstring xml_content with
  | inl e => report e
  | inr colors =>
      match colors with
      | [] => mkRun [] ["Error: No colors found in input"] 1
      | _ =>
          match create_colormap_json colors (name args) with
          | inl e => report e
          | inr colormap =>
              mkRun [JsonDump colormap (pretty args); Text newline]
                    (if output_is_stdout args then []
                     else [check_mark ++ " Created colormap '"
                           ++ Py.str (Colormap.name colormap) ++ "' with "
                           ++ nat_to_string (List.length colors) ++ " colors"])
                    0
          end
      end
  end.

End Main.

(** ** Definitions for the properties of the whole program *)

(** The summary line [main] prints once the colormap is written. *)
Definition summary (colormap : Colormap.t) (colors : list ColorRecord.t)
  : string :=
  check_mark ++ " Created colormap '" ++ Py.str (Colormap.name colormap)
  ++ "' with " ++ nat_to_string (List.length colors) ++ " colors".

(** The keys of a [color] element that the extractor reads. *)
Definition color_keys : list string := ["name"; "hex"; "r"; "g"; "b"].

(** Two elements with the same values, or the same absence of a value, for
    the keys the extractor reads. *)
Definition same_attributes (e1 e2 : ET.Element) : Prop :=
  forall key, In key color_keys -> ET.get e1 key = ET.get e2 key.

(** A record with its [hex] field replaced. *)
Definition with_hex (hex : option string) (color : ColorRecord.t)
  : ColorRecord.t :=
  ColorRecord.mk (ColorRecord.name color) hex (ColorRecord.r color)
                 (ColorRecord.g color) (ColorRecord.b color).

(** The float nearest to [k / 10000], and the list of those floats for
    [k = 0 .. 10000]: the values a number rounded to four places can take
    between 0 and 1. *)
Definition ten_thousandth (k : Z) : Float.t :=
  match Float.of_ratio k (10 ^ 4) with
  | inr x => x
  | inl _ => Float.zero
  end.

Definition grid : list Float.t :=
  map (fun k => ten_thousandth (Z.of_nat k)) (seq 0 (Z.to_nat 10001)).

(** Strictly smaller, on floats. *)
Definition float_lt (x y : Float.t) : Prop := Float.scaled x < Float.scaled y.

(** More documents for the examples. The three colours with a [title]
    element holding a [color] of its own between the first and the second;
    the three colours with an attribute and a child element more on each
    [color], the attributes in another order, under another root. *)
Definition palette3_titled : ET.Element :=
  ET.mkElement "palette" []
    [color_elem "A" "#FF0000" "255" "0" "0";
     ET.mkElement "title" [] [color_elem "T" "#000000" "1" "2" "3"];
     color_elem "B" "#00FF00" "0" "255" "0";
     color_elem "C" "#0000FF" "0" "0" "255"].

Definition palette3_titled_xml : string :=
  "<palette>" ++
  "<color name='A' hex='#FF0000' r='255' g='0' b='0'/>" ++
  "<title><color name='T' hex='#000000' r='1' g='2' b='3'/></title>" ++
  "<color name='B' hex='#00FF00' r='0' g='255' b='0'/>" ++
  "<color name='C' hex='#0000FF' r='0' g='0' b='255'/>" ++
  "</palette>".

Definition verbose_color (name hex r g b : string) : ET.Element :=
  ET.mkElement "color"
    [("id", "x"); ("b", b); ("g", g); ("r", r); ("hex", hex); ("name", name)]
    [ET.mkElement "note" [] []].

Definition palette3_verbose : ET.Element :=
  ET.mkElement "swatches" [("version", "2")]
    [verbose_color "A" "#FF0000" "255" "0" "0";
     verbose_color "B" "#00FF00" "0" "255" "0";
     verbose_color "C" "#0000FF" "0" "0" "255"].

Definition palette3_verbose_xml : string :=
  "<swatches version='2'>" ++
  "<color id='x' b='0' g='0' r='255' hex='#FF0000' name='A'><note/></color>" ++
  "<color id='x' b='0' g='255' r='0' hex='#00FF00' name='B'><note/></color>" ++
  "<color id='x' b='255' g='0' r='0' hex='#0000FF' name='C'><note/></color>" ++
  "</swatches>".

Definition example_fromstring' : string -> result ET.Element :=
  parser_of [(palette3_xml, palette3);
             (palette3_titled_xml, palette3_titled);
             (palette3_verbose_xml, palette3_verbose)].

(** A palette of 10002 colours, and one of five. *)
Definition many_colors : list ColorRecord.t := repeat red (Z.to_nat 10002).

Definition five_colors : list ColorRecord.t := [red; green; blue; red; green].

(** * Properties *)

(** ** Rounding to the nearest integer *)

Module FloatFacts.
Import Float.

Lemma rne_cases n d :
  0 < d -> rne n d = n / d \/ rne n d = n / d + 1.
Proof.
  intros _. unfold rne.
  destruct (2 * (n mod d) ?= d); [destruct (Z.even (n / d))| |]; auto.
Qed.

Lemma rne_exact k d : 0 < d -> rne (k * d) d = k.
Proof.
  intros Hd. unfold rne.
  rewrite Z.mod_mul, Z.div_mul by lia.
  destruct (Z.compare_spec (2 * 0) d); lia.
Qed.

Lemma rne_mono n1 d1 n2 d2 :
  0 < d1 -> 0 < d2 -> n1 * d2 <= n2 * d1 -> rne n1 d1 <= rne n2 d2.
Proof.
  intros H1 H2 Hle.
  assert (Hq : n1 / d1 <= n2 / d2).
  { apply Z.div_le_lower_bound; [lia|].
    pose proof (Z.mul_div_le n1 d1 H1).
    apply Z.lt_succ_r.
    apply Z.mul_lt_mono_pos_l with (p := d1); [lia|].
    pose proof (Z.mod_pos_bound n1 d1 H1).
    pose proof (Z.div_mod n1 d1 ltac:(lia)).
    pose proof (Z.mod_pos_bound n2 d2 H2).
    pose proof (Z.div_mod n2 d2 ltac:(lia)).
    nia. }
  destruct (Z.eq_dec (n1 / d1) (n2 / d2)) as [Heq|Hne].
  - pose proof (Z.mod_pos_bound n1 d1 H1) as B1.
    pose proof (Z.div_mod n1 d1 ltac:(lia)) as E1.
    pose proof (Z.mod_pos_bound n2 d2 H2) as B2.
    pose proof (Z.div_mod n2 d2 ltac:(lia)) as E2.
    unfold rne. rewrite <- Heq in *.
    set (q := n1 / d1) in *. set (r1 := n1 mod d1) in *.
    set (r2 := n2 mod d2) in *.
    assert (Hr : r1 * d2 <= r2 * d1) by nia.
    destruct (Z.compare_spec (2 * r1) d1);
      destruct (Z.compare_spec (2 * r2) d2);
      destruct (Z.even q); try lia; nia.
  - destruct (rne_cases n1 d1 H1), (rne_cases n2 d2 H2); lia.
Qed.

Lemma rne_ge k n d : 0 < d -> k * d <= n -> k <= rne n d.
Proof.
  intros Hd H. rewrite <- (rne_exact k d Hd).
  apply rne_mono; nia.
Qed.

Lemma rne_le k n d : 0 < d -> n <= k * d -> rne n d <= k.
Proof.
  intros Hd H. rewrite <- (rne_exact k d Hd).
  apply rne_mono; nia.
Qed.

(** ** The exponent of a quotient in the unit interval *)

Lemma scale2_nonpos x n : n <= 0 -> scale2 x n = x.
Proof. intros H. unfold scale2. rewrite Z.max_l by lia. simpl. lia. Qed.

Lemma scale2_nonneg x n : 0 <= n -> scale2 x n = x * 2 ^ n.
Proof. intros H. unfold scale2. rewrite Z.max_r by lia. reflexivity. Qed.

(** For [0 < a <= b] the exponent [k] found is the one with
    [2^k <= a/b < 2^(k+1)], stated with [n = -k]. *)
Lemma floor_log2_ratio_unit a b :
  0 < a <= b ->
  let n := - floor_log2_ratio a b in
  0 <= n /\ b <= a * 2 ^ n < 2 * b.
Proof.
  intros [Ha Hab]. unfold floor_log2_ratio.
  pose proof (Z.log2_spec a Ha) as [La Ua].
  pose proof (Z.log2_spec b ltac:(lia)) as [Lb Ub].
  pose proof (Z.log2_le_mono a b Hab) as Hl.
  pose proof (Z.log2_nonneg a) as Hna.
  set (la := Z.log2 a) in *. set (lb := Z.log2 b) in *.
  rewrite scale2_nonpos, scale2_nonneg by lia.
  replace (- (la - lb)) with (lb - la) by lia.
  assert (Hp : 2 ^ lb = 2 ^ la * 2 ^ (lb - la)).
  { rewrite <- Z.pow_add_r by lia. f_equal. lia. }
  assert (Hp' : 0 < 2 ^ (lb - la)) by (apply Z.pow_pos_nonneg; lia).
  rewrite !Z.pow_succ_r in * by lia.
  destruct (Z.leb_spec b (a * 2 ^ (lb - la))) as [Ht|Ht]; cbv zeta.
  - replace (- (la - lb)) with (lb - la) by lia.
    split; [lia|]. split; [exact Ht|]. nia.
  - replace (- (la - lb - 1)) with (Z.succ (lb - la)) by lia.
    rewrite Z.pow_succ_r by lia.
    split; [lia|]. split; nia.
Qed.

(** The exponent is monotone in the quotient. *)
Lemma exponent_antitone a1 b1 n1 a2 b2 n2 :
  0 < a1 -> 0 < a2 -> 0 <= n1 -> 0 <= n2 ->
  b1 <= a1 * 2 ^ n1 < 2 * b1 ->
  b2 <= a2 * 2 ^ n2 < 2 * b2 ->
  a1 * b2 <= a2 * b1 ->
  n2 <= n1.
Proof.
  intros Ha1 Ha2 Hn1 Hn2 [L1 U1] [L2 U2] Hle.
  destruct (Z_le_gt_dec n2 n1) as [|Hgt]; [assumption|exfalso].
  assert (Hp : 2 ^ n2 = 2 ^ (n2 - n1 - 1) * (2 * 2 ^ n1)).
  { rewrite <- Z.pow_succ_r, <- Z.pow_add_r by lia. f_equal. lia. }
  assert (Hq : 0 < 2 ^ (n2 - n1 - 1)) by (apply Z.pow_pos_nonneg; lia).
  assert (Hr : 0 < 2 ^ n1) by (apply Z.pow_pos_nonneg; lia).
  assert (Hs : a2 * 2 ^ n1 < b2) by nia.
  assert (Ht : a1 * (a2 * 2 ^ n1) < a2 * b1) by nia.
  nia.
Qed.

(** ** Correctly rounded quotients in the unit interval *)

Lemma of_ratio_unit a b :
  0 < a <= b ->
  exists n x,
    0 <= n /\ b <= a * 2 ^ n < 2 * b /\
    of_ratio a b = inr x /\
    scaled x = rne (a * 2 ^ shift n) b * 2 ^ (1074 - shift n) /\
    canonical x /\ expo x <= -52.
Proof.
  intros Hab.
  pose proof (floor_log2_ratio_unit a b Hab) as Hk. cbv zeta in Hk.
  unfold of_ratio.
  destruct (Z.eqb_spec a 0) as [|_]; [lia|].
  set (k := floor_log2_ratio a b) in *.
  exists (- k). destruct Hk as (Hn & Hlo & Hhi).
  assert (He : Z.max (-1074) (k - 52) = - shift (- k)) by (unfold shift; lia).
  rewrite He. set (s := shift (- k)).
  assert (Hs : 52 <= s <= 1074) by (unfold s, shift; lia).
  rewrite scale2_nonneg, scale2_nonpos by lia.
  rewrite Z.opp_involutive.
  set (m := rne (a * 2 ^ s) b).
  assert (Hps : 0 < 2 ^ s) by (apply Z.pow_pos_nonneg; lia).
  assert (Hpk : 0 < 2 ^ (- k)) by (apply Z.pow_pos_nonneg; lia).
  assert (Hm0 : 0 <= m) by (apply rne_ge; nia).
  assert (Hsk : s <= - k + 52) by (unfold s, shift; lia).
  assert (Hm53 : m <= 2 ^ 53).
  { apply rne_le; [lia|].
    assert (E : 2 ^ (- k + 52) = 2 ^ s * 2 ^ (- k + 52 - s))
      by (rewrite <- Z.pow_add_r by lia; f_equal; lia).
    assert (0 < 2 ^ (- k + 52 - s)) by (apply Z.pow_pos_nonneg; lia).
    rewrite Z.pow_add_r in E by lia.
    change (2 ^ 53) with (2 * 2 ^ 52). nia. }
  assert (Hnormal : s < 1074 -> 2 ^ 52 <= m).
  { intros Hlt. apply rne_ge; [lia|].
    replace s with (- k + 52) by (unfold s, shift in *; lia).
    rewrite Z.pow_add_r by lia. nia. }
  assert (Hone : k = 0 -> m = 2 ^ 52).
  { intros Hk0. unfold m, s, shift. rewrite Hk0 in *. simpl (2 ^ (- 0)) in *.
    replace a with b by lia.
    replace (b * 2 ^ Z.min 1074 (- 0 + 52)) with (2 ^ 52 * b)
      by (rewrite Z.min_r by lia; simpl (- 0 + 52); lia).
    apply rne_exact. lia. }
  destruct (Z.eqb_spec m (2 ^ 53)) as [Hc|Hc].
  - assert (Hk1 : k <> 0).
    { intros Hk0. specialize (Hone Hk0). rewrite Hone in Hc. discriminate. }
    assert (Hs53 : 53 <= s) by (unfold s, shift; lia).
    destruct (Z.ltb_spec 971 (- s + 1)) as [|_]; [lia|].
    eexists. split; [exact Hn|]. split; [split; assumption|].
    split; [reflexivity|].
    unfold scaled, canonical; simpl mant; simpl expo.
    split; [|split; [left; split; [split; [lia|reflexivity]|lia]|lia]].
    rewrite Hc. replace (- s + 1 + 1074) with (Z.succ (1074 - s)) by lia.
    rewrite Z.pow_succ_r by lia. change (2 ^ 53) with (2 * 2 ^ 52). lia.
  - destruct (Z.ltb_spec 971 (- s)) as [|_]; [lia|].
    eexists. split; [exact Hn|]. split; [split; assumption|].
    split; [reflexivity|].
    unfold scaled, canonical; simpl mant; simpl expo.
    split; [f_equal; f_equal; lia|]. split; [|lia].
    destruct (Z_lt_le_dec s 1074) as [Hlt|Hge].
    + left. specialize (Hnormal Hlt). lia.
    + destruct (Z_lt_le_dec m (2 ^ 52)).
      * right. lia.
      * left. lia.
Qed.

Lemma of_ratio_zero b : of_ratio 0 b = inr zero.
Proof. reflexivity. Qed.

Lemma of_ratio_same b : 0 < b -> of_ratio b b = inr one.
Proof.
  intros Hb.
  destruct (of_ratio_unit b b ltac:(lia))
    as (n & x & Hn & [Hlo Hhi] & Hx & Hs & Hc & He).
  assert (n = 0).
  { destruct (Z.eq_dec n 0) as [|Hne]; [assumption|exfalso].
    assert (2 ^ n = 2 * 2 ^ (n - 1))
      by (rewrite <- Z.pow_succ_r by lia; f_equal; lia).
    assert (0 < 2 ^ (n - 1)) by (apply Z.pow_pos_nonneg; lia).
    nia. }
  subst n. rewrite Hx. f_equal.
  unfold shift in Hs. rewrite Z.min_r in Hs by lia.
  replace (b * 2 ^ (0 + 52)) with (2 ^ 52 * b) in Hs
    by (simpl (0 + 52); lia).
  rewrite rne_exact in Hs by lia.
  destruct x as [m e]. unfold scaled, canonical, one in *.
  simpl mant in *; simpl expo in *.
  assert (Hp : 2 ^ (1074 - (0 + 52)) = 2 ^ (-52 - e) * 2 ^ (e + 1074)).
  { destruct Hc; (rewrite <- Z.pow_add_r by lia; f_equal; lia). }
  assert (0 < 2 ^ (e + 1074)) by (apply Z.pow_pos_nonneg; destruct Hc; lia).
  assert (Hm : m = 2 ^ 52 * 2 ^ (-52 - e)) by nia.
  destruct (Z.eq_dec e (-52)) as [->|Hne].
  - f_equal. rewrite Hm. reflexivity.
  - exfalso.
    assert (2 ^ (-52 - e) = 2 * 2 ^ (-52 - e - 1))
      by (rewrite <- Z.pow_succ_r by (destruct Hc; lia); f_equal; lia).
    assert (0 < 2 ^ (-52 - e - 1))
      by (apply Z.pow_pos_nonneg; destruct Hc; lia).
    change (2 ^ 53) with (2 * 2 ^ 52) in Hc. destruct Hc; nia.
Qed.

Lemma canonical_scaled_nonneg x : canonical x -> 0 <= scaled x.
Proof.
  unfold canonical, scaled. intros H.
  apply Z.mul_nonneg_nonneg; [|apply Z.pow_nonneg]; lia.
Qed.

(** Rounding a quotient to the nearest float is monotone. *)
Lemma of_ratio_mono_pos a1 b1 a2 b2 x1 x2 :
  0 < a1 <= b1 -> 0 < a2 <= b2 -> a1 * b2 <= a2 * b1 ->
  of_ratio a1 b1 = inr x1 -> of_ratio a2 b2 = inr x2 ->
  le x1 x2.
Proof.
  intros H1 H2 Hle E1 E2.
  destruct (of_ratio_unit a1 b1 H1)
    as (n1 & y1 & Hn1 & B1 & Ey1 & S1 & _ & _).
  destruct (of_ratio_unit a2 b2 H2)
    as (n2 & y2 & Hn2 & B2 & Ey2 & S2 & _ & _).
  rewrite E1 in Ey1. rewrite E2 in Ey2.
  injection Ey1 as <-. injection Ey2 as <-.
  unfold le. rewrite S1, S2.
  assert (Hn : n2 <= n1)
    by (apply (exponent_antitone a1 b1 n1 a2 b2 n2); lia).
  assert (Hs1 : 52 <= shift n1 <= 1074) by (unfold shift; lia).
  assert (Hs2 : 52 <= shift n2 <= 1074) by (unfold shift; lia).
  assert (Hs : shift n2 <= shift n1) by (unfold shift; lia).
  destruct (Z.eq_dec (shift n1) (shift n2)) as [Heq|Hne].
  - rewrite Heq.
    apply Z.mul_le_mono_nonneg_r; [apply Z.pow_nonneg; lia|].
    assert (0 < 2 ^ shift n2) by (apply Z.pow_pos_nonneg; lia).
    apply rne_mono; nia.
  - assert (Hs2' : shift n2 = n2 + 52) by (unfold shift in *; lia).
    assert (Hn' : n2 + 1 <= n1) by (unfold shift in *; lia).
    set (s1 := shift n1) in *. set (s2 := shift n2) in *.
    apply Z.le_trans with (2 ^ (s1 - s2 + 52) * 2 ^ (1074 - s1)).
    + apply Z.mul_le_mono_nonneg_r; [apply Z.pow_nonneg; lia|].
      apply rne_le; [lia|].
      assert (P1 : 2 ^ s1 = 2 ^ n2 * 2 ^ (s1 - s2 + 52))
        by (rewrite <- Z.pow_add_r by lia; f_equal; lia).
      assert (P2 : 2 ^ n1 = 2 * 2 ^ n2 * 2 ^ (n1 - n2 - 1)).
      { rewrite <- Z.pow_succ_r, <- Z.pow_add_r by lia. f_equal. lia. }
      assert (0 < 2 ^ n2) by (apply Z.pow_pos_nonneg; lia).
      assert (0 < 2 ^ (n1 - n2 - 1)) by (apply Z.pow_pos_nonneg; lia).
      assert (0 < 2 ^ (s1 - s2 + 52)) by (apply Z.pow_pos_nonneg; lia).
      assert (a1 * 2 ^ n2 < b1) by nia.
      rewrite P1. nia.
    + apply Z.le_trans with (2 ^ 52 * 2 ^ (1074 - s2)).
      * rewrite <- !Z.pow_add_r by lia.
        apply Z.pow_le_mono_r; lia.
      * apply Z.mul_le_mono_nonneg_r; [apply Z.pow_nonneg; lia|].
        apply rne_ge; [lia|].
        rewrite Hs2', Z.pow_add_r by lia. nia.
Qed.

Lemma canonical_zero : canonical zero.
Proof. right. simpl. lia. Qed.

Lemma canonical_one : canonical one.
Proof. left. simpl. lia. Qed.

(** Every quotient in the unit interval has a float, at most [1.0]. *)
Lemma of_ratio_unit_total a b :
  0 <= a <= b -> 0 < b ->
  exists x, of_ratio a b = inr x /\ canonical x /\ expo x <= -52 /\ le x one.
Proof.
  intros Hab Hb. destruct (Z.eq_dec a 0) as [->|Ha].
  - exists zero. repeat split.
    + exact canonical_zero.
    + simpl. lia.
    + unfold le, scaled. simpl mant. simpl expo. apply Z.mul_nonneg_nonneg.
      * lia.
      * apply Z.pow_nonneg. lia.
  - destruct (of_ratio_unit a b ltac:(lia))
      as (n & x & _ & _ & Hx & _ & Hc & He).
    exists x. repeat split; try assumption.
    apply (of_ratio_mono_pos a b b b x one);
      [lia|lia|nia|assumption|apply of_ratio_same; lia].
Qed.

Lemma of_ratio_mono a1 b1 a2 b2 x1 x2 :
  0 <= a1 <= b1 -> 0 < b1 -> 0 <= a2 <= b2 -> 0 < b2 ->
  a1 * b2 <= a2 * b1 ->
  of_ratio a1 b1 = inr x1 -> of_ratio a2 b2 = inr x2 ->
  le x1 x2.
Proof.
  intros H1 Hb1 H2 Hb2 Hle E1 E2.
  destruct (Z.eq_dec a1 0) as [->|Ha1].
  - rewrite of_ratio_zero in E1. injection E1 as <-.
    destruct (of_ratio_unit_total a2 b2 H2 Hb2) as (y & Ey & Hc & _).
    rewrite E2 in Ey. injection Ey as <-.
    unfold le. change (scaled zero) with 0.
    apply canonical_scaled_nonneg. assumption.
  - apply (of_ratio_mono_pos a1 b1 a2 b2); try assumption; nia.
Qed.

(** ** Rounding to four decimal places *)

Lemma round4_unfold x :
  expo x <= 0 ->
  round x 4 =
  match of_ratio (ten_thousandths x) (10 ^ 4) with
  | inl _ => raise (OverflowError "rounded value too large to represent")
  | inr y => ret y
  end.
Proof.
  intros He. unfold round, ten_thousandths.
  change (323 <? 4)%N with false. cbv iota.
  change (Z.of_N 4) with 4.
  rewrite scale2_nonpos, scale2_nonneg by lia.
  rewrite Z.mul_1_l. reflexivity.
Qed.

Lemma ten_thousandths_mono x1 x2 :
  canonical x1 -> canonical x2 -> expo x1 <= 0 -> expo x2 <= 0 ->
  le x1 x2 -> ten_thousandths x1 <= ten_thousandths x2.
Proof.
  unfold le, scaled, ten_thousandths, canonical.
  destruct x1 as [m1 e1], x2 as [m2 e2]. simpl mant. simpl expo.
  intros C1 C2 E1 E2 Hle.
  assert (T1 : 2 ^ 1074 = 2 ^ (e1 + 1074) * 2 ^ (- e1))
    by (rewrite <- Z.pow_add_r by lia; f_equal; lia).
  assert (T2 : 2 ^ 1074 = 2 ^ (e2 + 1074) * 2 ^ (- e2))
    by (rewrite <- Z.pow_add_r by lia; f_equal; lia).
  assert (0 < 2 ^ (- e1)) by (apply Z.pow_pos_nonneg; lia).
  assert (0 < 2 ^ (- e2)) by (apply Z.pow_pos_nonneg; lia).
  assert (0 < 2 ^ (e1 + 1074)) by (apply Z.pow_pos_nonneg; lia).
  assert (0 < 2 ^ (e2 + 1074)) by (apply Z.pow_pos_nonneg; lia).
  apply rne_mono; try assumption.
  set (T := 2 ^ 1074) in *.
  set (A1 := 2 ^ (e1 + 1074)) in *. set (B1 := 2 ^ (- e1)) in *.
  set (A2 := 2 ^ (e2 + 1074)) in *. set (B2 := 2 ^ (- e2)) in *.
  assert (0 < T) by nia.
  assert (Hk : m1 * A1 * (B1 * B2) <= m2 * A2 * (B1 * B2))
    by (apply Z.mul_le_mono_nonneg_r; nia).
  assert (Hm : (m1 * B2) * T <= (m2 * B1) * T).
  { replace (m1 * B2 * T) with (m1 * A1 * (B1 * B2)) by (rewrite T1; ring).
    replace (m2 * B1 * T) with (m2 * A2 * (B1 * B2)) by (rewrite T2; ring).
    exact Hk. }
  apply Z.mul_le_mono_pos_r in Hm; [|assumption].
  change (10 ^ 4) with 10000. lia.
Qed.

Lemma ten_thousandths_zero : ten_thousandths zero = 0.
Proof.
  unfold ten_thousandths. simpl mant. simpl expo.
  change (0 * 10 ^ 4) with (0 * 2 ^ (- -1074)).
  apply rne_exact. apply Z.pow_pos_nonneg; lia.
Qed.

Lemma ten_thousandths_one : ten_thousandths one = 10 ^ 4.
Proof.
  unfold ten_thousandths. simpl mant. simpl expo.
  rewrite Z.mul_comm. apply rne_exact. reflexivity.
Qed.

Lemma round4_total x :
  canonical x -> expo x <= -52 -> le x one ->
  exists y,
    round x 4 = inr y /\ of_ratio (ten_thousandths x) (10 ^ 4) = inr y /\
    0 <= ten_thousandths x <= 10 ^ 4 /\
    canonical y /\ expo y <= -52 /\ le y one.
Proof.
  intros Hc He Hle.
  assert (Hk : 0 <= ten_thousandths x <= 10 ^ 4).
  { split.
    - rewrite <- ten_thousandths_zero.
      apply ten_thousandths_mono;
        [exact canonical_zero|assumption|simpl; lia|lia|].
      unfold le. change (scaled zero) with 0.
      apply canonical_scaled_nonneg. assumption.
    - rewrite <- ten_thousandths_one.
      apply ten_thousandths_mono;
        [assumption|exact canonical_one|lia|simpl; lia|assumption]. }
  destruct (of_ratio_unit_total (ten_thousandths x) (10 ^ 4) Hk ltac:(reflexivity))
    as (y & Ey & Cy & Hy & Ly).
  exists y. rewrite round4_unfold by lia. rewrite Ey.
  repeat split; try assumption; apply Hk.
Qed.

Lemma round4_mono x1 x2 y1 y2 :
  canonical x1 -> expo x1 <= -52 -> canonical x2 -> expo x2 <= -52 ->
  le x1 x2 -> le x2 one ->
  round x1 4 = inr y1 -> round x2 4 = inr y2 -> le y1 y2.
Proof.
  intros C1 E1 C2 E2 H12 H2 R1 R2.
  assert (H1 : le x1 one) by (unfold le in *; lia).
  destruct (round4_total x1 C1 E1 H1) as (z1 & Rz1 & O1 & K1 & _).
  destruct (round4_total x2 C2 E2 H2) as (z2 & Rz2 & O2 & K2 & _).
  rewrite R1 in Rz1. rewrite R2 in Rz2.
  injection Rz1 as <-. injection Rz2 as <-.
  apply (of_ratio_mono _ _ _ _ _ _ K1 ltac:(reflexivity) K2 ltac:(reflexivity));
    try assumption.
  apply Z.mul_le_mono_nonneg_r; [discriminate|].
  apply ten_thousandths_mono; try assumption; lia.
Qed.

Lemma round4_zero : round zero 4 = inr zero.
Proof.
  rewrite round4_unfold by (simpl; lia).
  rewrite ten_thousandths_zero. reflexivity.
Qed.

Lemma round4_one : round one 4 = inr one.
Proof.
  rewrite round4_unfold by (simpl; lia).
  rewrite ten_thousandths_one, of_ratio_same; reflexivity.
Qed.

(** ** Sanity of the representation *)

Lemma leb_le x y : leb x y = true <-> le x y.
Proof. unfold leb, le. apply Z.leb_le. Qed.

(** Canonical floats are equal exactly when their values are. *)
Lemma canonical_scaled_inj x y :
  canonical x -> canonical y -> scaled x = scaled y -> x = y.
Proof.
  assert (Hstep : forall m1 e1 m2 e2,
             0 <= m1 < 2 ^ 53 -> 2 ^ 52 <= m2 ->
             -1074 <= e1 < e2 ->
             m1 * 2 ^ (e1 + 1074) <> m2 * 2 ^ (e2 + 1074)).
  { intros m1 e1 m2 e2 H1 H2 He Heq.
    assert (Hp : 2 ^ (e2 + 1074) = 2 * 2 ^ (e2 - e1 - 1) * 2 ^ (e1 + 1074)).
    { rewrite <- Z.pow_succ_r, <- Z.pow_add_r by lia. f_equal. lia. }
    assert (0 < 2 ^ (e2 - e1 - 1)) by (apply Z.pow_pos_nonneg; lia).
    assert (0 < 2 ^ (e1 + 1074)) by (apply Z.pow_pos_nonneg; lia).
    change (2 ^ 53) with (2 * 2 ^ 52) in H1. nia. }
  destruct x as [m1 e1], y as [m2 e2]. unfold canonical, scaled.
  simpl mant. simpl expo. intros C1 C2 Heq.
  destruct (Z.lt_trichotomy e1 e2) as [Hlt|[->|Hgt]].
  - exfalso. apply (Hstep m1 e1 m2 e2); lia.
  - f_equal.
    assert (0 < 2 ^ (e2 + 1074)) by (apply Z.pow_pos_nonneg; lia).
    nia.
  - exfalso. apply (Hstep m2 e2 m1 e1); lia.
Qed.

(** The model of division agrees with the IEEE 754 division of the
    standard library on every quotient [a / b] with [0 <= a <= 64] and
    [1 <= b <= 64]. *)
Lemma of_ratio_agrees_with_SFdiv :
  forallb (fun a =>
    forallb (fun b => agrees_with_SFdiv (Z.of_nat a) (Z.of_nat (S b)))
            (seq 0 64))
    (seq 0 65) = true.
Proof. vm_compute. reflexivity. Qed.

End FloatFacts.

(** ** Stop positions *)

Section Positions.
Import Float FloatFacts.

(** The quotient [i / (num_colors - 1)] before it is rounded to four
    places. *)
Lemma quotient_total (num_colors i : nat) :
  (1 < num_colors)%nat -> (i < num_colors)%nat ->
  exists x,
    int_truediv (N.of_nat i) (N.of_nat (num_colors - 1)) = inr x /\
    of_ratio (Z.of_nat i) (Z.of_nat (num_colors - 1)) = inr x /\
    canonical x /\ expo x <= -52 /\ le x one.
Proof.
  intros Hn Hi. unfold int_truediv.
  destruct (N.eqb_spec (N.of_nat (num_colors - 1)) 0) as [|_]; [lia|].
  rewrite !nat_N_Z.
  destruct (of_ratio_unit_total (Z.of_nat i) (Z.of_nat (num_colors - 1)))
    as (x & Ex & Hx); [lia|lia|].
  exists x. auto.
Qed.

Lemma stop_position_total (num_colors i : nat) :
  (i < num_colors)%nat ->
  exists p, stop_position num_colors i = inr p /\ canonical p /\ le p one.
Proof.
  intros Hi. unfold stop_position.
  destruct (Nat.ltb_spec 1 num_colors) as [Hn|Hn].
  - destruct (quotient_total num_colors i Hn Hi) as (x & Ex & _ & Cx & Hx & Lx).
    rewrite Ex. simpl bind.
    destruct (round4_total x Cx Hx Lx) as (y & Ry & _ & _ & Cy & _ & Ly).
    exists y. auto.
  - simpl bind. rewrite round4_zero. exists zero.
    split; [reflexivity|]. split; [exact canonical_zero|].
    unfold le. change (scaled zero) with 0.
    apply canonical_scaled_nonneg. exact canonical_one.
Qed.

Lemma stop_position_mono (num_colors i j : nat) p q :
  (i <= j)%nat -> (j < num_colors)%nat ->
  stop_position num_colors i = inr p ->
  stop_position num_colors j = inr q ->
  le p q.
Proof.
  intros Hij Hj. unfold stop_position.
  destruct (Nat.ltb_spec 1 num_colors) as [Hn|Hn].
  - destruct (quotient_total num_colors i Hn ltac:(lia))
      as (x & Ex & Ox & Cx & Hx & Lx).
    destruct (quotient_total num_colors j Hn Hj)
      as (y & Ey & Oy & Cy & Hy & Ly).
    rewrite Ex, Ey. simpl bind. intros Rp Rq.
    apply (round4_mono x y p q); try assumption.
    apply (of_ratio_mono (Z.of_nat i) (Z.of_nat (num_colors - 1))
                         (Z.of_nat j) (Z.of_nat (num_colors - 1)));
      try assumption; try lia.
    apply Z.mul_le_mono_nonneg_r; lia.
  - simpl bind. intros Rp Rq. rewrite Rp in Rq. injection Rq as <-.
    unfold le. lia.
Qed.

Lemma stop_position_first (num_colors : nat) :
  stop_position num_colors 0 = inr zero.
Proof.
  unfold stop_position.
  destruct (Nat.ltb_spec 1 num_colors) as [Hn|Hn].
  - unfold int_truediv.
    destruct (N.eqb_spec (N.of_nat (num_colors - 1)) 0) as [|_]; [lia|].
    simpl bind. exact round4_zero.
  - simpl bind. exact round4_zero.
Qed.

Lemma stop_position_last (num_colors : nat) :
  (2 <= num_colors)%nat ->
  stop_position num_colors (num_colors - 1) = inr one.
Proof.
  intros Hn. unfold stop_position.
  destruct (Nat.ltb_spec 1 num_colors) as [_|]; [|lia].
  unfold int_truediv.
  destruct (N.eqb_spec (N.of_nat (num_colors - 1)) 0) as [|_]; [lia|].
  rewrite of_ratio_same by lia. simpl bind. exact round4_one.
Qed.

End Positions.


(** ** The builder *)

Section Builder.

Lemma stops_loop_step num_colors i color rest stops :
  stops_loop num_colors i (color :: rest) stops =
  (rounded <- stop_position num_colors i ;;
   stops_loop num_colors (S i) rest
     (stops ++ [GradientStop.mk rounded (rgb color)])%list).
Proof.
  unfold stop_position. simpl stops_loop.
  destruct (if (1 <? num_colors)%nat then _ else _); reflexivity.
Qed.

Lemma stops_loop_ok num_colors colors :
  forall i stops,
    (i + List.length colors <= num_colors)%nat ->
    exists new,
      stops_loop num_colors i colors stops = inr (stops ++ new)%list /\
      map GradientStop.color new = map rgb colors /\
      Forall2 (fun j s => stop_position num_colors j
                          = inr (GradientStop.position s))
              (seq i (List.length colors)) new.
Proof.
  induction colors as [|color rest IH]; intros i stops Hlen.
  - exists []. rewrite app_nil_r. repeat split. constructor.
  - rewrite stops_loop_step.
    destruct (stop_position_total num_colors i) as (p & Hp & _);
      [simpl in Hlen; lia|].
    rewrite Hp. simpl bind.
    destruct (IH (S i) (stops ++ [GradientStop.mk p (rgb color)])%list)
      as (new & Hrun & Hcol & Hpos); [simpl in Hlen; lia|].
    exists (GradientStop.mk p (rgb color) :: new).
    rewrite Hrun, <- app_assoc. split; [reflexivity|].
    split; [simpl; f_equal; assumption|].
    simpl. constructor; assumption.
Qed.

Lemma Forall2_lookup {A B} (R : A -> B -> Prop) l1 l2 :
  Forall2 R l1 l2 ->
  forall i a b, nth_error l1 i = Some a -> nth_error l2 i = Some b -> R a b.
Proof.
  induction 1 as [|x y l1 l2 Hxy _ IH]; intros [|i] a b Ha Hb;
    simpl in *; try discriminate.
  - injection Ha as <-. injection Hb as <-. assumption.
  - eapply IH; eassumption.
Qed.

Lemma Forall2_same_length {A B} (R : A -> B -> Prop) l1 l2 :
  Forall2 R l1 l2 -> List.length l1 = List.length l2.
Proof. induction 1; simpl; congruence. Qed.

Lemma nth_error_seq0 n i : (i < n)%nat -> nth_error (seq 0 n) i = Some i.
Proof.
  intros Hi. rewrite (nth_error_nth' _ 0%nat) by (rewrite length_seq; lia).
  rewrite seq_nth by lia. reflexivity.
Qed.

(** What [create_colormap_json] returns on a non-empty list. *)
Lemma create_colormap_json_ok first others name :
  let colors := first :: others in
  exists stops,
    create_colormap_json colors name =
    inr (Colormap.mk
           match name with
           | None =>
               if (2 <=? List.length colors)%nat
               then Some (Py.str (ColorRecord.name first) ++ " "
                          ++ Py.str (ColorRecord.name (last others first)))
               else ColorRecord.name first
           | Some _ => name
           end stops) /\
    map GradientStop.color stops = map rgb colors /\
    List.length stops = List.length colors /\
    forall i s, nth_error stops i = Some s ->
      stop_position (List.length colors) i = inr (GradientStop.position s).
Proof.
  intros colors. unfold create_colormap_json. fold colors.
  destruct (stops_loop_ok (List.length colors) colors 0 [] ltac:(lia))
    as (stops & Hrun & Hcol & Hpos).
  exists stops. rewrite Hrun. simpl bind. simpl app.
  split; [reflexivity|]. split; [assumption|].
  pose proof (Forall2_same_length _ _ _ Hpos) as Hlen.
  rewrite length_seq in Hlen. split; [congruence|].
  intros i s Hs.
  assert (Hi : (i < List.length colors)%nat).
  { rewrite Hlen. apply nth_error_Some. congruence. }
  exact (Forall2_lookup _ _ _ Hpos i i s (nth_error_seq0 _ _ Hi) Hs).
Qed.

End Builder.

(** ** Claims about the builder *)

(** C2. For every non-empty list of N colours the builder returns a colormap
    whose stop positions are the quotients [i / (N - 1)] (or [0.0] when
    N = 1) rounded to four places; they never decrease with [i]; for N >= 2
    the first is exactly [0.0] and the last exactly [1.0]; for N = 1 the
    only one is exactly [0.0]. *)
Theorem C2_stop_positions (colors : list ColorRecord.t) (name : option string) :
  colors <> [] ->
  exists colormap,
    create_colormap_json colors name = inr colormap /\
    let N := List.length colors in
    let positions := map GradientStop.position (Colormap.stops colormap) in
    List.length positions = N /\
    (forall i p, nth_error positions i = Some p ->
       stop_position N i = inr p /\ Float.canonical p /\ Float.le p Float.one) /\
    nondecreasing positions /\
    ((2 <= N)%nat ->
     nth_error positions 0 = Some Float.zero /\
     nth_error positions (N - 1) = Some Float.one) /\
    (N = 1%nat -> positions = [Float.zero]).
Proof.
  intros Hne. destruct colors as [|first others]; [congruence|].
  destruct (create_colormap_json_ok first others name)
    as (stops & Hrun & _ & Hlen & Hpos).
  eexists. split; [exact Hrun|]. cbv zeta. simpl Colormap.stops.
  set (colors := first :: others) in *.
  set (N := List.length colors) in *.
  assert (Hat : forall i p,
             nth_error (map GradientStop.position stops) i = Some p ->
             stop_position N i = inr p).
  { intros i p Hi. rewrite nth_error_map in Hi.
    destruct (nth_error stops i) as [s|] eqn:Hs; [|discriminate].
    injection Hi as <-. apply Hpos. assumption. }
  assert (Hget : forall i, (i < N)%nat ->
             exists p, nth_error (map GradientStop.position stops) i = Some p).
  { intros i Hi.
    destruct (nth_error (map GradientStop.position stops) i) eqn:E;
      [eauto|].
    apply nth_error_None in E. rewrite length_map in E. lia. }
  split; [rewrite length_map; assumption|].
  split.
  { intros i p Hi. pose proof (Hat i p Hi) as Hp. split; [exact Hp|].
    assert (Hlt : (i < N)%nat).
    { rewrite <- Hlen, <- (length_map GradientStop.position).
      apply nth_error_Some. congruence. }
    destruct (stop_position_total N i Hlt) as (p' & Hp' & Hc & Hle).
    assert (p' = p) as <- by congruence. auto. }
  split; [|split].
  - intros i j p q Hij Hp Hq.
    assert (Hj : (j < N)%nat).
    { rewrite <- Hlen, <- (length_map GradientStop.position).
      apply nth_error_Some. congruence. }
    apply (stop_position_mono N i j); auto.
  - intros HN. split.
    + destruct (Hget 0%nat ltac:(lia)) as (p & Hp).
      rewrite Hp. f_equal. apply Hat in Hp.
      rewrite stop_position_first in Hp. congruence.
    + destruct (Hget (N - 1)%nat ltac:(lia)) as (p & Hp).
      rewrite Hp. f_equal. apply Hat in Hp.
      rewrite stop_position_last in Hp by assumption. congruence.
  - intros HN.
    destruct (Hget 0%nat ltac:(lia)) as (p & Hp).
    pose proof (Hat _ _ Hp) as Hz. rewrite stop_position_first in Hz.
    injection Hz as <-.
    destruct stops as [|s [|s' stops']]; simpl in Hlen; try lia.
    simpl in *. congruence.
Qed.

Lemma C2_stop_positions_witness :
  [red; green; blue] <> [] /\
  exists colormap,
    create_colormap_json [red; green; blue] None = inr colormap /\
    let N := List.length [red; green; blue] in
    let positions := map GradientStop.position (Colormap.stops colormap) in
    List.length positions = N /\
    (forall i p, nth_error positions i = Some p ->
       stop_position N i = inr p /\ Float.canonical p /\ Float.le p Float.one) /\
    nondecreasing positions /\
    ((2 <= N)%nat ->
     nth_error positions 0 = Some Float.zero /\
     nth_error positions (N - 1) = Some Float.one) /\
    (N = 1%nat -> positions = [Float.zero]).
Proof.
  split; [discriminate|].
  apply (C2_stop_positions [red; green; blue] None). discriminate.
Defined.

(** C3. For every non-empty list of N colours the builder returns a colormap
    with N stops, the colour of stop [i] being the triple (r, g, b) of the
    i-th record unchanged, in the order of the input, repeated colours
    included. *)
Theorem C3_colors_preserved (colors : list ColorRecord.t) (name : option string) :
  colors <> [] ->
  exists colormap,
    create_colormap_json colors name = inr colormap /\
    List.length (Colormap.stops colormap) = List.length colors /\
    map GradientStop.color (Colormap.stops colormap)
    = map (fun c => Color.mk (ColorRecord.r c) (ColorRecord.g c)
                             (ColorRecord.b c)) colors /\
    (forall i c, nth_error colors i = Some c ->
       exists s, nth_error (Colormap.stops colormap) i = Some s /\
                 GradientStop.color s
                 = Color.mk (ColorRecord.r c) (ColorRecord.g c)
                            (ColorRecord.b c)).
Proof.
  intros Hne. destruct colors as [|first others]; [congruence|].
  destruct (create_colormap_json_ok first others name)
    as (stops & Hrun & Hcol & Hlen & _).
  eexists. split; [exact Hrun|]. simpl Colormap.stops.
  split; [assumption|]. split; [exact Hcol|].
  intros i c Hc.
  assert (Hm : nth_error (map GradientStop.color stops) i = Some (rgb c))
    by (rewrite Hcol, nth_error_map, Hc; reflexivity).
  rewrite nth_error_map in Hm.
  destruct (nth_error stops i) as [s|]; [|discriminate].
  exists s. split; [reflexivity|]. simpl in Hm.
  injection Hm as ->. reflexivity.
Qed.

Lemma C3_colors_preserved_witness :
  [red; red; blue] <> [] /\
  exists colormap,
    create_colormap_json [red; red; blue] None = inr colormap /\
    List.length (Colormap.stops colormap) = List.length [red; red; blue] /\
    map GradientStop.color (Colormap.stops colormap)
    = map (fun c => Color.mk (ColorRecord.r c) (ColorRecord.g c)
                             (ColorRecord.b c)) [red; red; blue] /\
    (forall i c, nth_error [red; red; blue] i = Some c ->
       exists s, nth_error (Colormap.stops colormap) i = Some s /\
                 GradientStop.color s
                 = Color.mk (ColorRecord.r c) (ColorRecord.g c)
                            (ColorRecord.b c)).
Proof.
  split; [discriminate|].
  apply (C3_colors_preserved [red; red; blue] None). discriminate.
Defined.

(** The name derived when no override is given. *)
Lemma derived_name_ok (colors : list ColorRecord.t) :
  colors <> [] ->
  exists colormap,
    create_colormap_json colors None = inr colormap /\
    (forall only, colors = [only] ->
       Colormap.name colormap = ColorRecord.name only) /\
    (forall first middle final,
       colors = (first :: middle ++ [final])%list ->
       Colormap.name colormap
       = Some (Py.str (ColorRecord.name first) ++ " "
               ++ Py.str (ColorRecord.name final))).
Proof.
  intros Hne. destruct colors as [|c0 others]; [congruence|].
  destruct (create_colormap_json_ok c0 others None) as (stops & Hrun & _).
  eexists. split; [exact Hrun|]. simpl Colormap.name. split.
  - intros only Heq. injection Heq as -> ->. reflexivity.
  - intros first middle final Heq. injection Heq as -> ->.
    rewrite last_last.
    rewrite length_app, Nat.add_1_r. reflexivity.
Qed.

(** C5. For every non-empty list of colours: an override, when supplied, is
    the colormap's name; without one, a single colour gives its own [name]
    field as it is, and two or more give the first colour's name, one
    space, and the last colour's name, the colours in between playing no
    part. *)
Theorem C5_name_derivation (colors : list ColorRecord.t) (name : option string) :
  colors <> [] ->
  exists colormap,
    create_colormap_json colors name = inr colormap /\
    (forall override, name = Some override ->
       Colormap.name colormap = Some override) /\
    (forall only, name = None -> colors = [only] ->
       Colormap.name colormap = ColorRecord.name only) /\
    (forall first middle final, name = None ->
       colors = (first :: middle ++ [final])%list ->
       Colormap.name colormap
       = Some (Py.str (ColorRecord.name first) ++ " "
               ++ Py.str (ColorRecord.name final))).
Proof.
  intros Hne. destruct name as [override|].
  - destruct colors as [|c0 others]; [congruence|].
    destruct (create_colormap_json_ok c0 others (Some override))
      as (stops & Hrun & _).
    eexists. split; [exact Hrun|]. simpl Colormap.name.
    split; [intros ? [= <-]; reflexivity|]. split; discriminate.
  - destruct (derived_name_ok colors Hne) as (colormap & Hrun & Hone & Hmany).
    exists colormap. split; [exact Hrun|].
    split; [discriminate|]. split.
    + intros only _. apply Hone.
    + intros first middle final _. apply Hmany.
Qed.

Lemma C5_name_derivation_witness :
  [red; green; blue] <> [] /\
  exists colormap,
    create_colormap_json [red; green; blue] None = inr colormap /\
    (forall override, None = Some override ->
       Colormap.name colormap = Some override) /\
    (forall only, @None string = None -> [red; green; blue] = [only] ->
       Colormap.name colormap = ColorRecord.name only) /\
    (forall first middle final, @None string = None ->
       [red; green; blue] = (first :: middle ++ [final])%list ->
       Colormap.name colormap
       = Some (Py.str (ColorRecord.name first) ++ " "
               ++ Py.str (ColorRecord.name final))).
Proof.
  split; [discriminate|].
  apply (C5_name_derivation [red; green; blue] None). discriminate.
Defined.

(** C10. With no override, a list of two or more colours whose first or last
    record has no name ([None]) gets a name with the text "None" in that
    place, as in "None Blue"; a single record with no name gives a colormap
    whose name is [None] itself, not the text "None". *)
Theorem C10_null_names (colors : list ColorRecord.t) :
  colors <> [] ->
  exists colormap,
    create_colormap_json colors None = inr colormap /\
    (forall first middle final,
       colors = (first :: middle ++ [final])%list ->
       (ColorRecord.name first = None ->
        Colormap.name colormap
        = Some ("None " ++ Py.str (ColorRecord.name final))) /\
       (ColorRecord.name final = None ->
        Colormap.name colormap
        = Some (Py.str (ColorRecord.name first) ++ " None"))) /\
    (forall only,
       colors = [only] -> ColorRecord.name only = None ->
       Colormap.name colormap = None).
Proof.
  intros Hne.
  destruct (derived_name_ok colors Hne)
    as (colormap & Hrun & Hone & Hmany).
  exists colormap. split; [exact Hrun|]. split.
  - intros first middle final Heq.
    rewrite (Hmany first middle final Heq).
    split; intros ->; reflexivity.
  - intros only Heq Hnone. rewrite (Hone only Heq). assumption.
Qed.

Lemma C10_null_names_witness :
  [nameless; blue] <> [] /\
  exists colormap,
    create_colormap_json [nameless; blue] None = inr colormap /\
    (forall first middle final,
       [nameless; blue] = (first :: middle ++ [final])%list ->
       (ColorRecord.name first = None ->
        Colormap.name colormap
        = Some ("None " ++ Py.str (ColorRecord.name final))) /\
       (ColorRecord.name final = None ->
        Colormap.name colormap
        = Some (Py.str (ColorRecord.name first) ++ " None"))) /\
    (forall only,
       [nameless; blue] = [only] -> ColorRecord.name only = None ->
       Colormap.name colormap = None).
Proof.
  split; [discriminate|].
  apply (C10_null_names [nameless; blue]). discriminate.
Defined.

(** ** The extractor *)

Section ExtractorFacts.

Lemma attribute_errors_nil color_elem :
  attribute_errors color_elem = [] <->
  exists r g b,
    Py.int (ET.get color_elem "r") = inr r /\
    Py.int (ET.get color_elem "g") = inr g /\
    Py.int (ET.get color_elem "b") = inr b.
Proof.
  unfold attribute_errors. simpl.
  destruct (Py.int (ET.get color_elem "r")) as [e|r];
    destruct (Py.int (ET.get color_elem "g")) as [e'|g];
    destruct (Py.int (ET.get color_elem "b")) as [e''|b]; simpl;
    (split;
     [ intros H; try discriminate H; eauto 10
     | intros (? & ? & ? & ? & ? & ?); congruence ]).
Qed.

(** The loop either appends one record per element to the list built so
    far, or raises the first of the [int] errors of the elements. *)
Lemma parse_colors_loop_cases elems :
  forall colors,
    (int_errors elems = [] /\
     exists new,
       parse_colors_loop elems colors = inr (colors ++ new)%list /\
       Forall2 extracted elems new) \/
    (exists e rest,
       int_errors elems = e :: rest /\
       parse_colors_loop elems colors = inl e).
Proof.
  induction elems as [|color_elem elems IH]; intros colors.
  - left. split; [reflexivity|]. exists []. rewrite app_nil_r.
    split; [reflexivity|constructor].
  - simpl parse_colors_loop. unfold int_errors. simpl flat_map.
    fold (int_errors elems).
    unfold attribute_errors. simpl flat_map.
    destruct (Py.int (ET.get color_elem "r")) as [er|r] eqn:Er;
      [right; do 2 eexists; split; reflexivity|].
    destruct (Py.int (ET.get color_elem "g")) as [eg|g] eqn:Eg;
      [right; do 2 eexists; split; reflexivity|].
    destruct (Py.int (ET.get color_elem "b")) as [eb|b] eqn:Eb;
      [right; do 2 eexists; split; reflexivity|].
    simpl bind. simpl app.
    set (color := ColorRecord.mk (ET.get color_elem "name")
                                 (ET.get color_elem "hex") r g b).
    destruct (IH (colors ++ [color])%list)
      as [(Hnil & new & Hrun & Hall)|(e & rest & Herr & Hrun)].
    + left. split; [assumption|]. exists (color :: new).
      rewrite Hrun, <- app_assoc. split; [reflexivity|].
      constructor; [|assumption].
      unfold extracted, color. simpl. auto.
    + right. eauto.
Qed.

Lemma extracted_functional elems :
  forall l1 l2,
    Forall2 extracted elems l1 -> Forall2 extracted elems l2 -> l1 = l2.
Proof.
  induction elems as [|e elems IH]; intros l1 l2 H1 H2;
    inversion H1; inversion H2; subst; [reflexivity|].
  f_equal; [|apply IH; assumption].
  match goal with
  | Ha : extracted e ?a, Hb : extracted e ?b |- ?a = ?b =>
      destruct a, b, Ha as (? & ? & ? & ? & ?), Hb as (? & ? & ? & ? & ?);
      simpl in *; f_equal; congruence
  end.
Qed.

Lemma extracted_no_error elems new :
  Forall2 extracted elems new -> int_errors elems = [].
Proof.
  induction 1 as [|e c elems new (_ & _ & Hr & Hg & Hb) _ IH];
    [reflexivity|].
  unfold int_errors. simpl flat_map. fold (int_errors elems).
  rewrite IH, app_nil_r. apply attribute_errors_nil. eauto 10.
Qed.

Lemma parse_colors_loop_ok elems new :
  parse_colors_loop elems [] = inr new <-> Forall2 extracted elems new.
Proof.
  destruct (parse_colors_loop_cases elems [])
    as [(Hnil & l & Hrun & Hall)|(e & rest & Herr & Hrun)];
    rewrite Hrun; simpl app.
  - split.
    + intros [= <-]. assumption.
    + intros H. f_equal. eapply extracted_functional; eassumption.
  - split; [discriminate|].
    intros H. apply extracted_no_error in H. congruence.
Qed.

Lemma int_errors_in elems e :
  In e (int_errors elems) <->
  exists color_elem key,
    In color_elem elems /\ In key ["r"; "g"; "b"] /\
    Py.int (ET.get color_elem key) = inl e.
Proof.
  unfold int_errors, attribute_errors. rewrite in_flat_map. split.
  - intros (color_elem & Hin & He). apply in_flat_map in He.
    destruct He as (key & Hkey & He).
    exists color_elem, key. split; [assumption|]. split; [assumption|].
    destruct (Py.int (ET.get color_elem key)); simpl in He;
      [destruct He as [->|[]]; reflexivity|contradiction].
  - intros (color_elem & key & Hin & Hkey & He).
    exists color_elem. split; [assumption|]. apply in_flat_map.
    exists key. split; [assumption|]. rewrite He. left. reflexivity.
Qed.

(** What [int] can raise. *)
Lemma int_error_class x e :
  Py.int x = inl e ->
  (x = None -> class_of e = TypeErrorClass) /\
  (x <> None -> class_of e = ValueErrorClass) /\
  e <> ValueError "No colors provided".
Proof.
  unfold Py.int. destruct x as [s|].
  - destruct (Py.parse_int s); [discriminate|]. intros [= <-].
    split; [discriminate|]. split; [reflexivity|]. discriminate.
  - intros [= <-]. split; [reflexivity|]. split; [congruence|discriminate].
Qed.

Variable fromstring : string -> result ET.Element.

Lemma parse_coolors_xml_root xml_content root :
  fromstring xml_content = inr root ->
  parse_coolors_xml fromstring xml_content
  = parse_colors_loop (ET.findall root "color") [].
Proof. intros H. unfold parse_coolors_xml. rewrite H. reflexivity. Qed.

Lemma parse_coolors_xml_not_well_formed xml_content e :
  fromstring xml_content = inl e ->
  parse_coolors_xml fromstring xml_content = inl e.
Proof. intros H. unfold parse_coolors_xml. rewrite H. reflexivity. Qed.

(** When the extractor raises, [main] writes nothing to its output and
    exits with status 1. *)
Lemma main_extractor_error args e :
  parse_coolors_xml fromstring (input args) = inl e ->
  output (main fromstring args) = [] /\
  exit_status (main fromstring args) = 1.
Proof.
  intros H. unfold main, report. rewrite H. destruct (class_of e); auto.
Qed.

End ExtractorFacts.

(** ** Claims about the extractor and the pipeline *)

(** C1. The document with the three colours A (255,0,0), B (0,255,0) and
    C (0,0,255), through the extractor and then the builder with no
    override, gives the colormap named "A C" with the stops 0.0 (255,0,0),
    0.5 (0,255,0) and 1.0 (0,0,255). *)
Theorem C1_concrete_scenario (fromstring : string -> result ET.Element)
        (xml_content : string) :
  fromstring xml_content = inr palette3 ->
  parse_coolors_xml fromstring xml_content = inr [red; green; blue] /\
  (colors <- parse_coolors_xml fromstring xml_content ;;
   create_colormap_json colors None)
  = inr (Colormap.mk (Some "A C")
           [GradientStop.mk Float.zero (Color.mk 255 0 0);
            GradientStop.mk Float.half (Color.mk 0 255 0);
            GradientStop.mk Float.one (Color.mk 0 0 255)]).
Proof.
  intros Hroot. rewrite (parse_coolors_xml_root _ _ _ Hroot).
  split; vm_compute; reflexivity.
Qed.

Lemma C1_concrete_scenario_witness :
  example_fromstring palette3_xml = inr palette3 /\
  parse_coolors_xml example_fromstring palette3_xml
  = inr [red; green; blue] /\
  (colors <- parse_coolors_xml example_fromstring
                               palette3_xml ;;
   create_colormap_json colors None)
  = inr (Colormap.mk (Some "A C")
           [GradientStop.mk Float.zero (Color.mk 255 0 0);
            GradientStop.mk Float.half (Color.mk 0 255 0);
            GradientStop.mk Float.one (Color.mk 0 0 255)]).
Proof.
  split; [reflexivity|].
  apply (C1_concrete_scenario example_fromstring
                              palette3_xml).
  reflexivity.
Defined.

(** C4. For every well-formed document the extractor returns one record per
    direct child of the root named [color], in document order, other
    elements being ignored: [name] and [hex] are the attribute values as
    they are, [None] when absent, and [r], [g], [b] are the attribute texts
    read as base-10 integers. It returns exactly when every one of those
    texts is an integer literal. *)
Theorem C4_extraction (fromstring : string -> result ET.Element)
        (xml_content : string) (root : ET.Element) :
  fromstring xml_content = inr root ->
  forall colors,
    parse_coolors_xml fromstring xml_content = inr colors <->
    Forall2 extracted
      (filter (fun child => String.eqb (ET.tag child) "color")
              (ET.children root))
      colors.
Proof.
  intros Hroot colors. rewrite (parse_coolors_xml_root _ _ _ Hroot).
  apply parse_colors_loop_ok.
Qed.

Lemma C4_extraction_witness :
  example_fromstring palette3_xml = inr palette3 /\
  forall colors,
    parse_coolors_xml example_fromstring palette3_xml
    = inr colors <->
    Forall2 extracted
      (filter (fun child => String.eqb (ET.tag child) "color")
              (ET.children palette3))
      colors.
Proof.
  split; [reflexivity|].
  apply (C4_extraction example_fromstring palette3_xml).
  reflexivity.
Defined.

(** C6, as the claim states it, fails: a colour with r = 300, g = -1 and
    b = 256 is extracted, with those values. *)
Lemma C6_counterexample :
  parse_coolors_xml example_fromstring
                    palette_out_of_range_xml
  = inr [ColorRecord.mk (Some "Hot") (Some "#FF0000") 300 (-1) 256] /\
  ~ (0 <= 300 <= 255) /\ ~ (0 <= -1 <= 255) /\ ~ (0 <= 256 <= 255).
Proof. split; [reflexivity|lia]. Qed.

(** C6, amended. For every well-formed document in which the [r], [g] and
    [b] attributes of every [color] element hold integer literals,
    extraction succeeds and every record carries the integers read,
    whatever their value: there is no check against 0..255 and no
    clamping. *)
Theorem C6_no_range_check (fromstring : string -> result ET.Element)
        (xml_content : string) (root : ET.Element) :
  fromstring xml_content = inr root ->
  (forall color_elem key,
     In color_elem (ET.findall root "color") -> In key ["r"; "g"; "b"] ->
     exists v, Py.int (ET.get color_elem key) = inr v) ->
  exists colors,
    parse_coolors_xml fromstring xml_content = inr colors /\
    Forall2 (fun color_elem color =>
               Py.int (ET.get color_elem "r") = inr (ColorRecord.r color) /\
               Py.int (ET.get color_elem "g") = inr (ColorRecord.g color) /\
               Py.int (ET.get color_elem "b") = inr (ColorRecord.b color))
            (ET.findall root "color") colors.
Proof.
  intros Hroot Hint. rewrite (parse_coolors_xml_root _ _ _ Hroot).
  destruct (parse_colors_loop_cases (ET.findall root "color") [])
    as [(_ & colors & Hrun & Hall)|(e & rest & Herr & _)].
  - exists colors. split; [exact Hrun|].
    eapply Forall2_impl; [|exact Hall].
    intros color_elem color (_ & _ & H). exact H.
  - exfalso.
    assert (Hin : In e (int_errors (ET.findall root "color")))
      by (rewrite Herr; left; reflexivity).
    apply int_errors_in in Hin.
    destruct Hin as (color_elem & key & Hel & Hkey & He).
    destruct (Hint color_elem key Hel Hkey) as (v & Hv). congruence.
Qed.

Lemma C6_no_range_check_witness :
  example_fromstring
            palette_out_of_range_xml = inr palette_out_of_range /\
  (forall color_elem key,
     In color_elem (ET.findall palette_out_of_range "color") ->
     In key ["r"; "g"; "b"] ->
     exists v, Py.int (ET.get color_elem key) = inr v) /\
  exists colors,
    parse_coolors_xml
      example_fromstring
      palette_out_of_range_xml = inr colors /\
    Forall2 (fun color_elem color =>
               Py.int (ET.get color_elem "r") = inr (ColorRecord.r color) /\
               Py.int (ET.get color_elem "g") = inr (ColorRecord.g color) /\
               Py.int (ET.get color_elem "b") = inr (ColorRecord.b color))
            (ET.findall palette_out_of_range "color") colors.
Proof.
  assert (Hint : forall color_elem key,
             In color_elem (ET.findall palette_out_of_range "color") ->
             In key ["r"; "g"; "b"] ->
             exists v, Py.int (ET.get color_elem key) = inr v).
  { intros color_elem key [<-|[]] [<-|[<-|[<-|[]]]];
      eexists; vm_compute; reflexivity. }
  split; [reflexivity|]. split; [exact Hint|].
  apply (C6_no_range_check
           example_fromstring
           palette_out_of_range_xml palette_out_of_range);
    [reflexivity|exact Hint].
Defined.

(** C7, as the claim states it, fails: the exception for a non-integer
    attribute and the exception for an empty colour sequence are of one
    class, [ValueError], while a missing attribute gives a third class,
    [TypeError]. *)
Lemma C7_counterexample :
  exists malformed_color empty_palette,
    parse_coolors_xml example_fromstring
                      palette_bad_red_xml = inl malformed_color /\
    create_colormap_json [] None = inl empty_palette /\
    class_of malformed_color = class_of empty_palette.
Proof. do 2 eexists. repeat split. Qed.

(** C7, amended. The XML parser raising only [ParseError]: a text that is
    not well-formed makes the extractor raise that [ParseError]; a
    well-formed one with a [color] element lacking [r], [g] or [b] makes it
    raise a [TypeError], and with a non-integer text there a [ValueError];
    the builder raises a [ValueError] on an empty sequence. So the document
    error differs in class from the other two, while the error for a
    non-integer attribute and the one for an empty palette share the class
    [ValueError] and differ only in their message. *)
Theorem C7_error_kinds (fromstring : string -> result ET.Element)
        (xml_content : string) :
  (forall text e, fromstring text = inl e -> class_of e = ParseErrorClass) ->
  (forall e, fromstring xml_content = inl e ->
     parse_coolors_xml fromstring xml_content = inl e /\
     class_of e = ParseErrorClass) /\
  (forall root e,
     fromstring xml_content = inr root ->
     parse_coolors_xml fromstring xml_content = inl e ->
     exists color_elem key,
       In color_elem (ET.findall root "color") /\ In key ["r"; "g"; "b"] /\
       Py.int (ET.get color_elem key) = inl e /\
       (ET.get color_elem key = None -> class_of e = TypeErrorClass) /\
       (ET.get color_elem key <> None -> class_of e = ValueErrorClass)) /\
  (forall name,
     create_colormap_json [] name = inl (ValueError "No colors provided")) /\
  (forall e, parse_coolors_xml fromstring xml_content = inl e ->
     e <> ValueError "No colors provided").
Proof.
  intros Hparser. split; [|split; [|split]].
  - intros e He. split; [apply parse_coolors_xml_not_well_formed|eapply Hparser];
      eassumption.
  - intros root e Hroot. rewrite (parse_coolors_xml_root _ _ _ Hroot).
    intros Hrun.
    destruct (parse_colors_loop_cases (ET.findall root "color") [])
      as [(_ & colors & Hok & _)|(e' & rest & Herr & Hfail)]; [congruence|].
    assert (e' = e) as -> by congruence.
    assert (Hin : In e (int_errors (ET.findall root "color")))
      by (rewrite Herr; left; reflexivity).
    apply int_errors_in in Hin.
    destruct Hin as (color_elem & key & Hel & Hkey & He).
    exists color_elem, key. repeat split; try assumption;
      apply (int_error_class _ _ He).
  - reflexivity.
  - intros e Hrun Heq.
    destruct (fromstring xml_content) as [e'|root] eqn:Hroot.
    + rewrite (parse_coolors_xml_not_well_formed _ _ _ Hroot) in Hrun.
      assert (e' = e) as -> by congruence.
      apply Hparser in Hroot. rewrite Heq in Hroot. discriminate.
    + rewrite (parse_coolors_xml_root _ _ _ Hroot) in Hrun.
      destruct (parse_colors_loop_cases (ET.findall root "color") [])
        as [(_ & colors & Hok & _)|(e' & rest & Herr & Hfail)]; [congruence|].
      assert (e' = e) as -> by congruence.
      assert (Hin : In e (int_errors (ET.findall root "color")))
        by (rewrite Herr; left; reflexivity).
      apply int_errors_in in Hin.
      destruct Hin as (color_elem & key & _ & _ & He).
      apply (int_error_class _ _ He). assumption.
Qed.

Lemma parser_of_raises_ParseError table text e :
  parser_of table text = inl e -> class_of e = ParseErrorClass.
Proof.
  unfold parser_of. destruct (find _ table); [discriminate|].
  intros [= <-]. reflexivity.
Qed.

Lemma C7_error_kinds_witness :
  (forall text e, example_fromstring text = inl e -> class_of e = ParseErrorClass) /\
  (forall e, example_fromstring palette_bad_red_xml = inl e ->
     parse_coolors_xml example_fromstring palette_bad_red_xml = inl e /\
     class_of e = ParseErrorClass) /\
  (forall root e,
     example_fromstring palette_bad_red_xml = inr root ->
     parse_coolors_xml example_fromstring palette_bad_red_xml = inl e ->
     exists color_elem key,
       In color_elem (ET.findall root "color") /\ In key ["r"; "g"; "b"] /\
       Py.int (ET.get color_elem key) = inl e /\
       (ET.get color_elem key = None -> class_of e = TypeErrorClass) /\
       (ET.get color_elem key <> None -> class_of e = ValueErrorClass)) /\
  (forall name,
     create_colormap_json [] name = inl (ValueError "No colors provided")) /\
  (forall e, parse_coolors_xml example_fromstring palette_bad_red_xml = inl e ->
     e <> ValueError "No colors provided").
Proof.
  split; [apply parser_of_raises_ParseError|].
  apply (C7_error_kinds example_fromstring palette_bad_red_xml).
  apply parser_of_raises_ParseError.
Defined.

(** C8, as the claim states it, fails: the exception does not tell which
    attribute of which element was at fault. Two documents, one with the
    offending text in [r] of its first colour and one with it in [b] of its
    second colour, raise the same exception. *)
Lemma C8_counterexample :
  exists e first_a first_b second_b,
    parse_coolors_xml example_fromstring
                      palette_bad_red_xml = inl e /\
    parse_coolors_xml example_fromstring
                      palette_bad_blue_xml = inl e /\
    ET.findall palette_bad_red "color" = [first_a] /\
    Py.int (ET.get first_a "r") = inl e /\
    ET.findall palette_bad_blue "color" = [first_b; second_b] /\
    attribute_errors first_b = [] /\
    Py.int (ET.get second_b "r") = inr 0 /\
    Py.int (ET.get second_b "g") = inr 0 /\
    Py.int (ET.get second_b "b") = inl e.
Proof. do 4 eexists. repeat split. Qed.

(** C8, amended. For every well-formed document in which some [color]
    element lacks [r], [g] or [b] or has a non-integer text there,
    extraction fails for the whole document: it raises the exception of the
    first failing [int] call, elements taken in document order and [r], [g],
    [b] in that order within an element, it returns no record, and [main]
    writes nothing to its output and exits with status 1. *)
Theorem C8_fail_fast (fromstring : string -> result ET.Element)
        (xml_content : string) (root : ET.Element) :
  fromstring xml_content = inr root ->
  (exists color_elem key e,
     In color_elem (ET.findall root "color") /\ In key ["r"; "g"; "b"] /\
     Py.int (ET.get color_elem key) = inl e) ->
  exists e,
    hd_error (int_errors (ET.findall root "color")) = Some e /\
    parse_coolors_xml fromstring xml_content = inl e /\
    forall args, input args = xml_content ->
      output (main fromstring args) = [] /\
      exit_status (main fromstring args) = 1.
Proof.
  intros Hroot (color_elem & key & e0 & Hel & Hkey & He0).
  assert (Hin : In e0 (int_errors (ET.findall root "color")))
    by (apply int_errors_in; eauto).
  destruct (parse_colors_loop_cases (ET.findall root "color") [])
    as [(Hnil & _)|(e & rest & Herr & Hfail)].
  - rewrite Hnil in Hin. contradiction.
  - exists e. rewrite Herr. split; [reflexivity|].
    assert (Hrun : parse_coolors_xml fromstring xml_content = inl e)
      by (rewrite (parse_coolors_xml_root _ _ _ Hroot); exact Hfail).
    split; [exact Hrun|].
    intros args <-. apply (main_extractor_error _ _ e). exact Hrun.
Qed.

Lemma C8_fail_fast_witness :
  example_fromstring palette_bad_blue_xml = inr palette_bad_blue /\
  (exists color_elem key e,
     In color_elem (ET.findall palette_bad_blue "color") /\
     In key ["r"; "g"; "b"] /\
     Py.int (ET.get color_elem key) = inl e) /\
  exists e,
    hd_error (int_errors (ET.findall palette_bad_blue "color")) = Some e /\
    parse_coolors_xml example_fromstring palette_bad_blue_xml = inl e /\
    forall args, input args = palette_bad_blue_xml ->
      output (main example_fromstring args) = [] /\
      exit_status (main example_fromstring args) = 1.
Proof.
  assert (Hbad : exists color_elem key e,
             In color_elem (ET.findall palette_bad_blue "color") /\
             In key ["r"; "g"; "b"] /\
             Py.int (ET.get color_elem key) = inl e).
  { exists (color_elem "B" "#0000FF" "0" "0" "blue"), "b".
    eexists. split; [right; left; reflexivity|].
    split; [right; right; left; reflexivity|]. vm_compute. reflexivity. }
  split; [reflexivity|]. split; [exact Hbad|].
  apply (C8_fail_fast example_fromstring palette_bad_blue_xml palette_bad_blue);
    [reflexivity|exact Hbad].
Defined.

(** C9. For every well-formed document whose root has no [color] child the
    extractor succeeds with the empty sequence; it is the builder that
    rejects an empty sequence, with the [ValueError] "No colors provided",
    whatever the name, so no colormap is made up in its place. ([main]
    tests for the empty sequence itself before it calls the builder, and
    writes nothing either.) *)
Theorem C9_empty_palette (fromstring : string -> result ET.Element)
        (xml_content : string) (root : ET.Element) :
  fromstring xml_content = inr root ->
  Forall (fun child => ET.tag child <> "color") (ET.children root) ->
  parse_coolors_xml fromstring xml_content = inr [] /\
  (forall name,
     create_colormap_json [] name = inl (ValueError "No colors provided")) /\
  (forall name,
     (colors <- parse_coolors_xml fromstring xml_content ;;
      create_colormap_json colors name)
     = inl (ValueError "No colors provided")) /\
  (forall args, input args = xml_content ->
     main fromstring args = mkRun [] ["Error: No colors found in input"] 1).
Proof.
  intros Hroot Hnone.
  assert (Hfind : ET.findall root "color" = []).
  { unfold ET.findall. induction (ET.children root) as [|child rest IH];
      [reflexivity|].
    inversion Hnone as [|? ? Hchild Hrest]; subst. simpl.
    destruct (String.eqb_spec (ET.tag child) "color"); [contradiction|].
    apply IH. assumption. }
  assert (Hrun : parse_coolors_xml fromstring xml_content = inr [])
    by (rewrite (parse_coolors_xml_root _ _ _ Hroot), Hfind; reflexivity).
  rewrite Hrun. repeat split.
  intros args <-. unfold main. rewrite Hrun. reflexivity.
Qed.

Lemma C9_empty_palette_witness :
  example_fromstring palette_empty_xml = inr palette_empty /\
  Forall (fun child => ET.tag child <> "color") (ET.children palette_empty) /\
  parse_coolors_xml example_fromstring palette_empty_xml = inr [] /\
  (forall name,
     create_colormap_json [] name = inl (ValueError "No colors provided")) /\
  (forall name,
     (colors <- parse_coolors_xml example_fromstring palette_empty_xml ;;
      create_colormap_json colors name)
     = inl (ValueError "No colors provided")) /\
  (forall args, input args = palette_empty_xml ->
     main example_fromstring args
     = mkRun [] ["Error: No colors found in input"] 1).
Proof.
  assert (Hnone : Forall (fun child => ET.tag child <> "color")
                         (ET.children palette_empty)).
  { repeat constructor. discriminate. }
  split; [reflexivity|]. split; [exact Hnone|].
  apply (C9_empty_palette example_fromstring palette_empty_xml palette_empty);
    [reflexivity|exact Hnone].
Defined.

(** * Further properties *)

(** ** The driver *)

(** The three ways a run of [main] can go. *)
Lemma main_cases (fromstring : string -> result ET.Element) (args : Args) :
  (exists e,
     parse_coolors_xml fromstring (input args) = inl e /\
     main fromstring args = report e) \/
  (parse_coolors_xml fromstring (input args) = inr [] /\
   main fromstring args = mkRun [] ["Error: No colors found in input"] 1) \/
  (exists colors colormap,
     parse_coolors_xml fromstring (input args) = inr colors /\
     colors <> [] /\
     create_colormap_json colors (name args) = inr colormap /\
     main fromstring args
     = mkRun [JsonDump colormap (pretty args); Text newline]
             (if output_is_stdout args then [] else [summary colormap colors])
             0).
Proof.
  unfold main.
  destruct (parse_coolors_xml fromstring (input args)) as [e|colors].
  - left. eauto.
  - right. destruct colors as [|first others].
    + left. auto.
    + right.
      destruct (create_colormap_json_ok first others (name args))
        as (stops & Hrun & _).
      exists (first :: others). eexists.
      split; [reflexivity|]. split; [discriminate|].
      split; [exact Hrun|]. rewrite Hrun. reflexivity.
Qed.

Lemma report_fails e : output (report e) = [] /\ exit_status (report e) = 1 /\
                       List.length (stderr (report e)) = 1%nat.
Proof. unfold report. destruct (class_of e); auto. Qed.

(** X1. [main] exits with status 0 exactly when the extractor returns at
    least one colour; the builder never fails once [main] calls it. *)
Theorem main_succeeds_iff (fromstring : string -> result ET.Element)
        (args : Args) :
  exit_status (main fromstring args) = 0 <->
  exists colors,
    parse_coolors_xml fromstring (input args) = inr colors /\ colors <> [].
Proof.
  destruct (main_cases fromstring args)
    as [(e & Hp & Hm)|[(Hp & Hm)|(colors & cm & Hp & Hne & _ & Hm)]];
    rewrite Hm, Hp.
  - destruct (report_fails e) as (_ & Hs & _). rewrite Hs.
    split; [discriminate|]. intros (? & ? & _). discriminate.
  - simpl. split; [discriminate|]. intros (colors & [= <-] & Hne). congruence.
  - simpl. split; [eauto|reflexivity].
Qed.

(** X2. Output is all or nothing: a run of [main] either writes nothing,
    prints one line on [stderr] and exits with status 1, or writes the
    colormap the builder made of the extracted colours, then a newline, and
    exits with status 0. *)
Theorem main_all_or_nothing (fromstring : string -> result ET.Element)
        (args : Args) :
  (output (main fromstring args) = [] /\
   List.length (stderr (main fromstring args)) = 1%nat /\
   exit_status (main fromstring args) = 1) \/
  (exists colors colormap,
     parse_coolors_xml fromstring (input args) = inr colors /\
     create_colormap_json colors (name args) = inr colormap /\
     output (main fromstring args)
     = [JsonDump colormap (pretty args); Text newline] /\
     exit_status (main fromstring args) = 0).
Proof.
  destruct (main_cases fromstring args)
    as [(e & Hp & Hm)|[(Hp & Hm)|(colors & cm & Hp & Hne & Hc & Hm)]];
    rewrite Hm.
  - left. destruct (report_fails e) as (Ho & Hs & He). auto.
  - left. auto.
  - right. exists colors, cm. auto.
Qed.

(** X3. The [--pretty] flag and the choice of output change neither the
    exit status nor the colormap written: two runs on the same input with
    the same name write the same colormap, each with its own flag. *)
Theorem main_flags_keep_colormap (fromstring : string -> result ET.Element)
        (args1 args2 : Args) :
  input args1 = input args2 -> name args1 = name args2 ->
  exit_status (main fromstring args1) = exit_status (main fromstring args2) /\
  forall colormap flag rest,
    output (main fromstring args1) = JsonDump colormap flag :: rest ->
    flag = pretty args1 /\
    output (main fromstring args2)
    = JsonDump colormap (pretty args2) :: rest.
Proof.
  intros Hi Hn.
  destruct (main_cases fromstring args1)
    as [(e & Hp & Hm)|[(Hp & Hm)|(colors & cm & Hp & Hne & Hc & Hm)]];
    destruct (main_cases fromstring args2)
      as [(e' & Hp' & Hm')|[(Hp' & Hm')|(colors' & cm' & Hp' & Hne' & Hc' & Hm')]];
    rewrite Hi in Hp; rewrite ?Hn in *; rewrite Hm, Hm';
    try congruence.
  - assert (e' = e) as -> by congruence.
    destruct (report_fails e) as (Ho & Hs & _). rewrite Ho.
    split; [reflexivity|]. discriminate.
  - simpl. split; [reflexivity|]. discriminate.
  - assert (colors' = colors) as -> by congruence.
    assert (cm' = cm) as -> by congruence.
    simpl. split; [reflexivity|].
    intros colormap flag rest [= <- <- <-]. auto.
Qed.

Lemma main_flags_keep_colormap_witness :
  input (mkArgs palette3_xml true None false)
  = input (mkArgs palette3_xml false None true) /\
  name (mkArgs palette3_xml true None false)
  = name (mkArgs palette3_xml false None true) /\
  exit_status (main example_fromstring (mkArgs palette3_xml true None false))
  = exit_status (main example_fromstring (mkArgs palette3_xml false None true)) /\
  forall colormap flag rest,
    output (main example_fromstring (mkArgs palette3_xml true None false))
    = JsonDump colormap flag :: rest ->
    flag = pretty (mkArgs palette3_xml true None false) /\
    output (main example_fromstring (mkArgs palette3_xml false None true))
    = JsonDump colormap (pretty (mkArgs palette3_xml false None true)) :: rest.
Proof.
  split; [reflexivity|]. split; [reflexivity|].
  apply (main_flags_keep_colormap example_fromstring
           (mkArgs palette3_xml true None false)
           (mkArgs palette3_xml false None true)); reflexivity.
Defined.

(** X4. A successful run prints nothing on [stderr] exactly when it writes
    to standard output; otherwise it prints the one summary line, with the
    colormap's name and the number of colours. *)
Theorem main_summary_line (fromstring : string -> result ET.Element)
        (args : Args) :
  exit_status (main fromstring args) = 0 ->
  (output_is_stdout args = true /\ stderr (main fromstring args) = []) \/
  (output_is_stdout args = false /\
   exists colors colormap,
     parse_coolors_xml fromstring (input args) = inr colors /\
     create_colormap_json colors (name args) = inr colormap /\
     stderr (main fromstring args) = [summary colormap colors]).
Proof.
  destruct (main_cases fromstring args)
    as [(e & Hp & Hm)|[(Hp & Hm)|(colors & cm & Hp & Hne & Hc & Hm)]];
    rewrite Hm.
  - destruct (report_fails e) as (_ & Hs & _). rewrite Hs. discriminate.
  - discriminate.
  - intros _. simpl. destruct (output_is_stdout args).
    + left. auto.
    + right. split; [reflexivity|]. exists colors, cm. auto.
Qed.

Lemma main_summary_line_witness :
  exit_status (main example_fromstring (mkArgs palette3_xml false None false)) = 0 /\
  ((output_is_stdout (mkArgs palette3_xml false None false) = true /\
    stderr (main example_fromstring (mkArgs palette3_xml false None false)) = []) \/
   (output_is_stdout (mkArgs palette3_xml false None false) = false /\
    exists colors colormap,
      parse_coolors_xml example_fromstring
                        (input (mkArgs palette3_xml false None false))
      = inr colors /\
      create_colormap_json colors (name (mkArgs palette3_xml false None false))
      = inr colormap /\
      stderr (main example_fromstring (mkArgs palette3_xml false None false))
      = [summary colormap colors])).
Proof.
  split; [reflexivity|].
  apply (main_summary_line example_fromstring
           (mkArgs palette3_xml false None false)).
  reflexivity.
Defined.

Lemma parse_colors_loop_nil elems :
  parse_colors_loop elems [] = inr [] -> elems = [].
Proof.
  intros H. apply parse_colors_loop_ok in H. inversion H. reflexivity.
Qed.

Lemma parse_colors_loop_error elems e :
  parse_colors_loop elems [] = inl e ->
  hd_error (int_errors elems) = Some e.
Proof.
  intros H.
  destruct (parse_colors_loop_cases elems [])
    as [(_ & new & Hrun & _)|(e' & rest & Herr & Hrun)]; [congruence|].
  rewrite Herr. simpl. congruence.
Qed.

Lemma hd_int_errors_class elems e :
  hd_error (int_errors elems) = Some e -> class_of e <> ParseErrorClass.
Proof.
  intros H.
  assert (Hin : In e (int_errors elems)).
  { destruct (int_errors elems); [discriminate|].
    injection H as ->. left. reflexivity. }
  apply int_errors_in in Hin. destruct Hin as (c & key & _ & _ & He).
  destruct (int_error_class _ _ He) as (Hnone & Hsome & _).
  destruct (ET.get c key) as [s|].
  - rewrite Hsome; discriminate.
  - rewrite Hnone; [discriminate|reflexivity].
Qed.

(** X5. The XML parser raising only [ParseError], the line a failed run
    prints tells which failure it was: "Error parsing XML: " and the
    parser's message for a text that is not well-formed, "Error: No colors
    found in input" for a document without [color] element, and "Error: "
    and the message of the first failing [int] call otherwise. *)
Theorem main_diagnostics (fromstring : string -> result ET.Element)
        (args : Args) :
  (forall text e, fromstring text = inl e -> class_of e = ParseErrorClass) ->
  exit_status (main fromstring args) = 1 ->
  (exists e,
     fromstring (input args) = inl e /\
     stderr (main fromstring args) = ["Error parsing XML: " ++ message_of e]) \/
  (exists root,
     fromstring (input args) = inr root /\
     ET.findall root "color" = [] /\
     stderr (main fromstring args) = ["Error: No colors found in input"]) \/
  (exists root e,
     fromstring (input args) = inr root /\
     hd_error (int_errors (ET.findall root "color")) = Some e /\
     stderr (main fromstring args) = ["Error: " ++ message_of e]).
Proof.
  intros Hparser.
  destruct (main_cases fromstring args)
    as [(e & Hp & Hm)|[(Hp & Hm)|(colors & cm & Hp & Hne & Hc & Hm)]];
    rewrite Hm; [| |discriminate]; intros _.
  - destruct (fromstring (input args)) as [e'|root] eqn:Hroot.
    + rewrite (parse_coolors_xml_not_well_formed _ _ _ Hroot) in Hp.
      assert (e' = e) as -> by congruence.
      left. exists e. split; [reflexivity|].
      unfold report. rewrite (Hparser _ _ Hroot). reflexivity.
    + rewrite (parse_coolors_xml_root _ _ _ Hroot) in Hp.
      apply parse_colors_loop_error in Hp.
      right. right. exists root, e. split; [reflexivity|].
      split; [exact Hp|].
      apply hd_int_errors_class in Hp.
      unfold report. destruct (class_of e); try reflexivity. congruence.
  - destruct (fromstring (input args)) as [e'|root] eqn:Hroot.
    + rewrite (parse_coolors_xml_not_well_formed _ _ _ Hroot) in Hp.
      discriminate.
    + rewrite (parse_coolors_xml_root _ _ _ Hroot) in Hp.
      apply parse_colors_loop_nil in Hp.
      right. left. exists root. auto.
Qed.

Lemma main_diagnostics_witness :
  (forall text e, example_fromstring text = inl e ->
                  class_of e = ParseErrorClass) /\
  exit_status (main example_fromstring (mkArgs palette_bad_blue_xml true None false)) = 1 /\
  ((exists e,
      example_fromstring (input (mkArgs palette_bad_blue_xml true None false))
      = inl e /\
      stderr (main example_fromstring (mkArgs palette_bad_blue_xml true None false))
      = ["Error parsing XML: " ++ message_of e]) \/
   (exists root,
      example_fromstring (input (mkArgs palette_bad_blue_xml true None false))
      = inr root /\
      ET.findall root "color" = [] /\
      stderr (main example_fromstring (mkArgs palette_bad_blue_xml true None false))
      = ["Error: No colors found in input"]) \/
   (exists root e,
      example_fromstring (input (mkArgs palette_bad_blue_xml true None false))
      = inr root /\
      hd_error (int_errors (ET.findall root "color")) = Some e /\
      stderr (main example_fromstring (mkArgs palette_bad_blue_xml true None false))
      = ["Error: " ++ message_of e])).
Proof.
  split; [apply parser_of_raises_ParseError|]. split; [reflexivity|].
  apply (main_diagnostics example_fromstring
           (mkArgs palette_bad_blue_xml true None false));
    [apply parser_of_raises_ParseError|reflexivity].
Defined.

(** X6. End to end: for a well-formed document with at least one [color]
    element, all of whose [r], [g] and [b] texts are integer literals,
    [main] exits with status 0 having written one colormap and a newline;
    the colormap has one stop per [color] element, in document order, with
    the integers read from that element as its colour; its name is the
    override when there is one, and otherwise made of the [name] attributes
    of the first and the last element. *)
Theorem main_end_to_end (fromstring : string -> result ET.Element)
        (args : Args) (root : ET.Element) :
  fromstring (input args) = inr root ->
  ET.findall root "color" <> [] ->
  int_errors (ET.findall root "color") = [] ->
  exists colors colormap,
    main fromstring args
    = mkRun [JsonDump colormap (pretty args); Text newline]
            (if output_is_stdout args then [] else [summary colormap colors])
            0 /\
    Forall2 extracted (ET.findall root "color") colors /\
    map GradientStop.color (Colormap.stops colormap) = map rgb colors /\
    (forall override, name args = Some override ->
       Colormap.name colormap = Some override) /\
    (forall only, name args = None -> ET.findall root "color" = [only] ->
       Colormap.name colormap = ET.get only "name") /\
    (forall first middle final, name args = None ->
       ET.findall root "color" = (first :: middle ++ [final])%list ->
       Colormap.name colormap
       = Some (Py.str (ET.get first "name") ++ " "
               ++ Py.str (ET.get final "name"))).
Proof.
  intros Hroot Hne Hint.
  destruct (parse_colors_loop_cases (ET.findall root "color") [])
    as [(_ & colors & Hrun & Hall)|(e & rest & Herr & _)]; [|congruence].
  simpl app in Hrun.
  assert (Hp : parse_coolors_xml fromstring (input args) = inr colors)
    by (rewrite (parse_coolors_xml_root _ _ _ Hroot); exact Hrun).
  destruct colors as [|c0 others];
    [inversion Hall as [Hnil|]; congruence|].
  destruct (create_colormap_json_ok c0 others (name args))
    as (stops & Hc & Hcol & _).
  exists (c0 :: others). eexists. split; [|split; [exact Hall|]].
  - unfold main. rewrite Hp, Hc. reflexivity.
  - simpl Colormap.stops. simpl Colormap.name. split; [exact Hcol|].
    split; [|split].
    + intros override ->. reflexivity.
    + intros only -> Heq. rewrite Heq in Hall.
      inversion Hall as [|? ? ? ? Hx Hrest]; subst.
      inversion Hrest; subst. simpl. apply Hx.
    + intros first middle final -> Heq. rewrite Heq in Hall.
      inversion Hall as [|? ? ? ? Hx Hrest]; subst.
      apply Forall2_app_inv_l in Hrest.
      destruct Hrest as (cs & cl & Hmid & Hlast & ->).
      inversion Hlast as [|? cf ? ? Hf Hnil]; subst.
      inversion Hnil; subst.
      rewrite last_last, length_app, Nat.add_1_r.
      destruct Hx as (-> & _). destruct Hf as (-> & _). reflexivity.
Qed.

Lemma main_end_to_end_witness :
  example_fromstring (input (mkArgs palette3_xml true None false))
  = inr palette3 /\
  ET.findall palette3 "color" <> [] /\
  int_errors (ET.findall palette3 "color") = [] /\
  exists colors colormap,
    main example_fromstring (mkArgs palette3_xml true None false)
    = mkRun [JsonDump colormap (pretty (mkArgs palette3_xml true None false));
             Text newline]
            (if output_is_stdout (mkArgs palette3_xml true None false)
             then [] else [summary colormap colors])
            0 /\
    Forall2 extracted (ET.findall palette3 "color") colors /\
    map GradientStop.color (Colormap.stops colormap) = map rgb colors /\
    (forall override,
       name (mkArgs palette3_xml true None false) = Some override ->
       Colormap.name colormap = Some override) /\
    (forall only, name (mkArgs palette3_xml true None false) = None ->
       ET.findall palette3 "color" = [only] ->
       Colormap.name colormap = ET.get only "name") /\
    (forall first middle final,
       name (mkArgs palette3_xml true None false) = None ->
       ET.findall palette3 "color" = (first :: middle ++ [final])%list ->
       Colormap.name colormap
       = Some (Py.str (ET.get first "name") ++ " "
               ++ Py.str (ET.get final "name"))).
Proof.
  split; [reflexivity|]. split; [discriminate|]. split; [reflexivity|].
  apply (main_end_to_end example_fromstring
           (mkArgs palette3_xml true None false) palette3);
    [reflexivity|discriminate|reflexivity].
Defined.

(** ** What the extractor and the builder read *)

Lemma parse_colors_loop_same elems1 elems2 :
  Forall2 same_attributes elems1 elems2 ->
  forall colors,
    parse_colors_loop elems1 colors = parse_colors_loop elems2 colors.
Proof.
  induction 1 as [|e1 e2 l1 l2 He _ IH]; intros colors; [reflexivity|].
  simpl.
  rewrite (He "name"), (He "hex"), (He "r"), (He "g"), (He "b")
    by (unfold color_keys; simpl; auto 10).
  destruct (Py.int (ET.get e2 "r")) as [|r]; [reflexivity|].
  destruct (Py.int (ET.get e2 "g")) as [|g]; [reflexivity|].
  destruct (Py.int (ET.get e2 "b")) as [|b]; [reflexivity|].
  simpl. apply IH.
Qed.

(** X7. The extractor looks only at the direct children of the root that
    are named [color]: the root's own tag and attributes do not matter, and
    a child with another tag is skipped whatever it holds, [color] elements
    nested in it included. *)
Theorem extraction_ignores_other_elements
        (fromstring : string -> result ET.Element) (xml1 xml2 : string)
        (tag1 tag2 : string) (attrib1 attrib2 : list (string * string))
        (before after : list ET.Element) (other : ET.Element) :
  fromstring xml1 = inr (ET.mkElement tag1 attrib1 (before ++ after)) ->
  fromstring xml2
  = inr (ET.mkElement tag2 attrib2 (before ++ other :: after)) ->
  ET.tag other <> "color" ->
  parse_coolors_xml fromstring xml2 = parse_coolors_xml fromstring xml1.
Proof.
  intros H1 H2 Htag.
  rewrite (parse_coolors_xml_root _ _ _ H1), (parse_coolors_xml_root _ _ _ H2).
  unfold ET.findall. simpl ET.children. rewrite !filter_app. simpl filter.
  destruct (String.eqb_spec (ET.tag other) "color"); [contradiction|].
  reflexivity.
Qed.

(** X8. Of a [color] element the extractor reads the attributes [name],
    [hex], [r], [g] and [b] and nothing else: two documents whose [color]
    elements agree, one by one, on these five give the same result, be it a
    list of records or an exception. *)
Theorem extraction_reads_five_attributes
        (fromstring : string -> result ET.Element) (xml1 xml2 : string)
        (root1 root2 : ET.Element) :
  fromstring xml1 = inr root1 -> fromstring xml2 = inr root2 ->
  Forall2 same_attributes (ET.findall root1 "color") (ET.findall root2 "color") ->
  parse_coolors_xml fromstring xml1 = parse_coolors_xml fromstring xml2.
Proof.
  intros H1 H2 Hsame.
  rewrite (parse_coolors_xml_root _ _ _ H1), (parse_coolors_xml_root _ _ _ H2).
  apply parse_colors_loop_same. assumption.
Qed.

Lemma stops_loop_same num_colors colors1 :
  forall colors2 i stops,
    map rgb colors1 = map rgb colors2 ->
    stops_loop num_colors i colors1 stops
    = stops_loop num_colors i colors2 stops.
Proof.
  induction colors1 as [|c1 rest1 IH]; intros [|c2 rest2] i stops Heq;
    try discriminate; [reflexivity|].
  simpl in Heq.
  assert (Hc : rgb c1 = rgb c2) by congruence.
  assert (Hrest : map rgb rest1 = map rgb rest2) by congruence.
  rewrite !stops_loop_step, Hc.
  destruct (stop_position num_colors i); [reflexivity|].
  simpl. apply IH. assumption.
Qed.

Lemma Forall2_last {A B} (R : A -> B -> Prop) l1 l2 :
  Forall2 R l1 l2 -> forall a b, R a b -> R (last l1 a) (last l2 b).
Proof.
  induction 1 as [|x y l1 l2 Hxy Hrest IH]; intros a b Hab; [assumption|].
  destruct Hrest; [assumption|]. apply IH. assumption.
Qed.

(** X9. The builder reads the [r], [g] and [b] of every record and the
    [name] of the first and the last; [hex] is never read. Two lists whose
    records agree, one by one, on name and channels give the same result. *)
Theorem builder_ignores_hex (colors1 colors2 : list ColorRecord.t)
        (name : option string) :
  Forall2 (fun c1 c2 => ColorRecord.name c1 = ColorRecord.name c2 /\
                        rgb c1 = rgb c2) colors1 colors2 ->
  create_colormap_json colors1 name = create_colormap_json colors2 name.
Proof.
  intros Hall.
  assert (Hrgb : map rgb colors1 = map rgb colors2).
  { induction Hall as [|c1 c2 l1 l2 (_ & Hc) _ IH]; [reflexivity|].
    simpl. f_equal; assumption. }
  assert (Hlen : List.length colors1 = List.length colors2)
    by (rewrite <- (length_map rgb colors1), Hrgb; apply length_map).
  destruct Hall as [|c1 c2 l1 l2 (Hn & Hc) Hrest]; [reflexivity|].
  unfold create_colormap_json.
  rewrite Hlen, (stops_loop_same _ _ _ _ _ Hrgb), Hn.
  assert (Hlast : ColorRecord.name (last l1 c1) = ColorRecord.name (last l2 c2)).
  { apply (Forall2_last
             (fun a b => ColorRecord.name a = ColorRecord.name b) l1 l2).
    - eapply Forall2_impl; [|exact Hrest]. intros a b (H & _). exact H.
    - exact Hn. }
  rewrite Hlast. reflexivity.
Qed.

(** ** The accuracy of the positions *)

Section PositionAccuracy.
Import Float FloatFacts.

(** The integer [rne] returns is within one half of the quotient. *)
Lemma rne_error n d : 0 < d -> - d <= 2 * rne n d * d - 2 * n <= d.
Proof.
  intros Hd. unfold rne.
  pose proof (Z.mod_pos_bound n d Hd) as B.
  pose proof (Z.div_mod n d ltac:(lia)) as E.
  set (q := n / d) in *. set (r := n mod d) in *.
  destruct (Z.compare_spec (2 * r) d); [destruct (Z.even q)| |]; nia.
Qed.

Lemma rne_ext n1 d1 n2 d2 :
  0 < d1 -> 0 < d2 -> n1 * d2 = n2 * d1 -> rne n1 d1 = rne n2 d2.
Proof.
  intros H1 H2 Heq. apply Z.le_antisymm; apply rne_mono; lia.
Qed.

(** The float of a quotient depends on the quotient only. *)
Lemma of_ratio_ext a1 b1 a2 b2 :
  0 <= a1 <= b1 -> 0 < b1 -> 0 <= a2 <= b2 -> 0 < b2 ->
  a1 * b2 = a2 * b1 -> of_ratio a1 b1 = of_ratio a2 b2.
Proof.
  intros H1 Hb1 H2 Hb2 Heq.
  destruct (of_ratio_unit_total a1 b1 H1 Hb1) as (x1 & E1 & C1 & _).
  destruct (of_ratio_unit_total a2 b2 H2 Hb2) as (x2 & E2 & C2 & _).
  rewrite E1, E2. f_equal. apply canonical_scaled_inj; try assumption.
  apply Z.le_antisymm.
  - apply (of_ratio_mono a1 b1 a2 b2); try assumption. lia.
  - apply (of_ratio_mono a2 b2 a1 b1); try assumption. lia.
Qed.

(** Rounding the float of [a / b] to four places gives an integer number of
    ten-thousandths within one half of [10000 * a / b], up to the error of
    the division, which is at most [2 ^ -53]. *)
Lemma ten_thousandths_of_ratio a b x :
  0 <= a <= b -> 0 < b -> of_ratio a b = inr x ->
  let k := ten_thousandths x in
  - ((2 ^ 52 + 10 ^ 4) * b)
  <= 2 ^ 52 * (2 * k * b - 2 * 10 ^ 4 * a)
  <= (2 ^ 52 + 10 ^ 4) * b.
Proof.
  intros Hab Hb Hx. cbv zeta.
  destruct (Z.eq_dec a 0) as [->|Ha].
  - rewrite of_ratio_zero in Hx. injection Hx as <-.
    rewrite ten_thousandths_zero. lia.
  - destruct (of_ratio_unit a b ltac:(lia))
      as (n & y & Hn & _ & Ey & Hs & Hc & He).
    rewrite Hx in Ey. injection Ey as <-.
    set (s := shift n) in *.
    assert (Hs52 : 52 <= s <= 1074) by (unfold s, shift; lia).
    set (m0 := rne (a * 2 ^ s) b) in *.
    pose proof (rne_error (a * 2 ^ s) b Hb) as E0. fold m0 in E0.
    destruct x as [m e]. unfold ten_thousandths, scaled, canonical in *.
    simpl mant in *. simpl expo in *.
    assert (He' : -1074 <= e) by lia.
    assert (Hpe : 0 < 2 ^ (- e)) by (apply Z.pow_pos_nonneg; lia).
    pose proof (rne_error (m * 10 ^ 4) (2 ^ (- e)) Hpe) as E1.
    set (k := rne (m * 10 ^ 4) (2 ^ (- e))) in *.
    set (A := 2 ^ (e + 1074)) in *. set (P := 2 ^ (1074 - s)) in *.
    assert (HA : 0 < A) by (apply Z.pow_pos_nonneg; lia).
    assert (HP : 0 < P) by (apply Z.pow_pos_nonneg; lia).
    assert (HT1 : 2 ^ (- e) * A = 2 ^ s * P).
    { unfold A, P. rewrite <- !Z.pow_add_r by lia. f_equal. lia. }
    set (U := 2 ^ s) in *. set (V := 2 ^ (- e)) in *.
    assert (HU : 2 ^ 52 <= U) by (apply Z.pow_le_mono_r; lia).
    change (10 ^ 4) with 10000 in *.
    (* |2 k U - 2 * 10000 * m0| <= U *)
    assert (E2 : - U <= 2 * k * U - 2 * 10000 * m0 <= U).
    { assert (- (U * P) <= (2 * k * U - 2 * 10000 * m0) * P <= U * P).
      { assert (Q : (2 * k * U - 2 * 10000 * m0) * P
                    = (2 * k * V - 2 * (m * 10000)) * A).
        { transitivity (2 * k * (U * P) - 2 * 10000 * (m0 * P)); [ring|].
          rewrite <- HT1, <- Hs. ring. }
        rewrite Q, <- HT1. nia. }
      nia. }
    (* U * X = b * (2 k U - 2 * 10000 m0) + 10000 * (2 m0 b - 2 a U) *)
    set (X := 2 * k * b - 2 * 10000 * a).
    assert (E3 : - (U * b + 10000 * b) <= U * X <= U * b + 10000 * b).
    { unfold X.
      replace (U * (2 * k * b - 2 * 10000 * a))
        with (b * (2 * k * U - 2 * 10000 * m0)
              + 10000 * (2 * m0 * b - 2 * (a * U))) by ring.
      nia. }
    change (2 ^ 52) with 4503599627370496 in *. nia.
Qed.

(** Below about 4.5e11 quotients the division error is too small to show:
    the number of ten-thousandths is a nearest integer to [10000 * a / b]. *)
Lemma ten_thousandths_nearest a b x :
  0 <= a <= b -> 0 < b -> 10 ^ 4 * b < 2 ^ 52 -> of_ratio a b = inr x ->
  - b <= 2 * ten_thousandths x * b - 2 * 10 ^ 4 * a <= b.
Proof.
  intros Hab Hb Hsmall Hx.
  pose proof (ten_thousandths_of_ratio a b x Hab Hb Hx) as H. cbv zeta in H.
  change (2 ^ 52) with 4503599627370496 in *.
  change (10 ^ 4) with 10000 in *. nia.
Qed.

(** A float of the grid rounds to itself. *)
Lemma ten_thousandths_grid k x :
  0 <= k <= 10 ^ 4 -> of_ratio k (10 ^ 4) = inr x -> ten_thousandths x = k.
Proof.
  intros Hk Hx.
  pose proof (ten_thousandths_nearest k (10 ^ 4) x Hk ltac:(reflexivity)
                ltac:(reflexivity) Hx) as H.
  change (10 ^ 4) with 10000 in *. lia.
Qed.

(** The floats of the grid are in strictly increasing order. *)
Lemma grid_increasing k1 k2 x1 x2 :
  0 <= k1 -> k1 < k2 -> k2 <= 10 ^ 4 ->
  of_ratio k1 (10 ^ 4) = inr x1 -> of_ratio k2 (10 ^ 4) = inr x2 ->
  float_lt x1 x2.
Proof.
  intros H0 Hlt H1 E1 E2.
  assert (Hle : le x1 x2).
  { apply (of_ratio_mono k1 (10 ^ 4) k2 (10 ^ 4)); try assumption;
      try reflexivity; lia. }
  unfold float_lt, le in *.
  destruct (Z.eq_dec (scaled x1) (scaled x2)) as [Heq|]; [exfalso|lia].
  destruct (of_ratio_unit_total k1 (10 ^ 4) ltac:(lia) ltac:(reflexivity))
    as (y1 & Ey1 & C1 & _).
  destruct (of_ratio_unit_total k2 (10 ^ 4) ltac:(lia) ltac:(reflexivity))
    as (y2 & Ey2 & C2 & _).
  assert (y1 = x1) as -> by congruence.
  assert (y2 = x2) as -> by congruence.
  apply canonical_scaled_inj in Heq; try assumption. subst x2.
  pose proof (ten_thousandths_grid k1 x1 ltac:(lia) E1).
  pose proof (ten_thousandths_grid k2 x1 ltac:(lia) E2).
  lia.
Qed.

(** The position of a stop as a number of ten-thousandths. *)
Lemma stop_position_ten_thousandths num_colors i p :
  (i < num_colors)%nat -> stop_position num_colors i = inr p ->
  exists k,
    0 <= k <= 10 ^ 4 /\ of_ratio k (10 ^ 4) = inr p /\
    ((1 < num_colors)%nat ->
     exists x,
       of_ratio (Z.of_nat i) (Z.of_nat (num_colors - 1)) = inr x /\
       k = ten_thousandths x) /\
    ((num_colors <= 1)%nat -> k = 0).
Proof.
  intros Hi. unfold stop_position.
  destruct (Nat.ltb_spec 1 num_colors) as [Hn|Hn].
  - destruct (quotient_total num_colors i Hn Hi) as (x & Ex & Ox & Cx & Hx & Lx).
    rewrite Ex. simpl bind. intros Hp.
    destruct (round4_total x Cx Hx Lx) as (y & Ry & Oy & Hk & _).
    assert (y = p) as -> by congruence.
    exists (ten_thousandths x). split; [assumption|]. split; [assumption|].
    split; [eauto|lia].
  - simpl bind. rewrite round4_zero. intros [= <-].
    exists 0. split; [|split; [reflexivity|split; [lia|reflexivity]]].
    split; [lia|discriminate].
Qed.

End PositionAccuracy.

(** The positions the builder returns are those [stop_position] gives. *)
Lemma create_colormap_json_positions (colors : list ColorRecord.t)
      (name : option string) :
  colors <> [] ->
  exists colormap,
    create_colormap_json colors name = inr colormap /\
    List.length (map GradientStop.position (Colormap.stops colormap))
    = List.length colors /\
    forall i p,
      nth_error (map GradientStop.position (Colormap.stops colormap)) i
      = Some p ->
      (i < List.length colors)%nat /\
      stop_position (List.length colors) i = inr p.
Proof.
  intros Hne. destruct colors as [|first others]; [congruence|].
  destruct (create_colormap_json_ok first others name)
    as (stops & Hrun & _ & Hlen & Hpos).
  eexists. split; [exact Hrun|]. simpl Colormap.stops.
  split; [rewrite length_map; exact Hlen|].
  intros i p Hi. split.
  - rewrite <- Hlen, <- (length_map GradientStop.position).
    apply nth_error_Some. congruence.
  - rewrite nth_error_map in Hi.
    destruct (nth_error stops i) as [s|] eqn:Hs; [|discriminate].
    injection Hi as <-. apply Hpos. assumption.
Qed.

Lemma extraction_ignores_other_elements_witness :
  example_fromstring' palette3_xml
  = inr (ET.mkElement "palette" []
           ([color_elem "A" "#FF0000" "255" "0" "0"]
            ++ [color_elem "B" "#00FF00" "0" "255" "0";
                color_elem "C" "#0000FF" "0" "0" "255"])) /\
  example_fromstring' palette3_titled_xml
  = inr (ET.mkElement "palette" []
           ([color_elem "A" "#FF0000" "255" "0" "0"]
            ++ ET.mkElement "title" [] [color_elem "T" "#000000" "1" "2" "3"]
            :: [color_elem "B" "#00FF00" "0" "255" "0";
                color_elem "C" "#0000FF" "0" "0" "255"])) /\
  ET.tag (ET.mkElement "title" [] [color_elem "T" "#000000" "1" "2" "3"])
  <> "color" /\
  parse_coolors_xml example_fromstring' palette3_titled_xml
  = parse_coolors_xml example_fromstring' palette3_xml.
Proof.
  split; [reflexivity|]. split; [reflexivity|]. split; [discriminate|].
  apply (extraction_ignores_other_elements example_fromstring'
           palette3_xml palette3_titled_xml "palette" "palette" [] []
           [color_elem "A" "#FF0000" "255" "0" "0"]
           [color_elem "B" "#00FF00" "0" "255" "0";
            color_elem "C" "#0000FF" "0" "0" "255"]
           (ET.mkElement "title" [] [color_elem "T" "#000000" "1" "2" "3"]));
    [reflexivity|reflexivity|discriminate].
Defined.

Lemma extraction_reads_five_attributes_witness :
  example_fromstring' palette3_xml = inr palette3 /\
  example_fromstring' palette3_verbose_xml = inr palette3_verbose /\
  Forall2 same_attributes (ET.findall palette3 "color")
          (ET.findall palette3_verbose "color") /\
  parse_coolors_xml example_fromstring' palette3_xml
  = parse_coolors_xml example_fromstring' palette3_verbose_xml.
Proof.
  assert (Hsame : Forall2 same_attributes (ET.findall palette3 "color")
                          (ET.findall palette3_verbose "color")).
  { repeat constructor;
      intros key [<-|[<-|[<-|[<-|[<-|[]]]]]]; reflexivity. }
  split; [reflexivity|]. split; [reflexivity|]. split; [exact Hsame|].
  apply (extraction_reads_five_attributes example_fromstring'
           palette3_xml palette3_verbose_xml palette3 palette3_verbose);
    [reflexivity|reflexivity|exact Hsame].
Defined.

Lemma builder_ignores_hex_witness :
  Forall2 (fun c1 c2 => ColorRecord.name c1 = ColorRecord.name c2 /\
                        rgb c1 = rgb c2)
          [red; green; blue] (map (with_hex None) [red; green; blue]) /\
  create_colormap_json [red; green; blue] None
  = create_colormap_json (map (with_hex None) [red; green; blue]) None.
Proof.
  assert (H : Forall2 (fun c1 c2 => ColorRecord.name c1 = ColorRecord.name c2 /\
                                    rgb c1 = rgb c2)
                      [red; green; blue]
                      (map (with_hex None) [red; green; blue])).
  { repeat constructor. }
  split; [exact H|].
  apply (builder_ignores_hex [red; green; blue]
           (map (with_hex None) [red; green; blue]) None). exact H.
Defined.

(** ** How fine the positions are *)

(** X10. Up to about 4.5e11 colours each position is the float nearest to
    [k / 10000] for an integer [k] nearest to [10000 * i / (N - 1)]: the
    error of the division never tips the rounding to four places. *)
Theorem positions_nearest (colors : list ColorRecord.t) (name : option string) :
  colors <> [] ->
  10 ^ 4 * Z.of_nat (List.length colors - 1) < 2 ^ 52 ->
  exists colormap,
    create_colormap_json colors name = inr colormap /\
    forall i p,
      nth_error (map GradientStop.position (Colormap.stops colormap)) i
      = Some p ->
      exists k,
        0 <= k <= 10 ^ 4 /\ Float.of_ratio k (10 ^ 4) = inr p /\
        - Z.of_nat (List.length colors - 1)
        <= 2 * k * Z.of_nat (List.length colors - 1)
           - 2 * 10 ^ 4 * Z.of_nat i
        <= Z.of_nat (List.length colors - 1).
Proof.
  intros Hne Hsmall.
  destruct (create_colormap_json_positions colors name Hne)
    as (cm & Hrun & _ & Hpos).
  exists cm. split; [exact Hrun|]. intros i p Hi.
  destruct (Hpos i p Hi) as (Hlt & Hp).
  destruct (stop_position_ten_thousandths _ _ _ Hlt Hp)
    as (k & Hk & Ek & Hmany & Hone).
  exists k. split; [exact Hk|]. split; [exact Ek|].
  destruct (Nat.lt_ge_cases 1 (List.length colors)) as [Hn|Hn].
  - destruct (Hmany Hn) as (x & Ex & ->).
    apply ten_thousandths_nearest in Ex; lia.
  - rewrite (Hone Hn). lia.
Qed.

Lemma positions_nearest_witness :
  [red; green; blue] <> [] /\
  10 ^ 4 * Z.of_nat (List.length [red; green; blue] - 1) < 2 ^ 52 /\
  exists colormap,
    create_colormap_json [red; green; blue] None = inr colormap /\
    forall i p,
      nth_error (map GradientStop.position (Colormap.stops colormap)) i
      = Some p ->
      exists k,
        0 <= k <= 10 ^ 4 /\ Float.of_ratio k (10 ^ 4) = inr p /\
        - Z.of_nat (List.length [red; green; blue] - 1)
        <= 2 * k * Z.of_nat (List.length [red; green; blue] - 1)
           - 2 * 10 ^ 4 * Z.of_nat i
        <= Z.of_nat (List.length [red; green; blue] - 1).
Proof.
  split; [discriminate|]. split; [reflexivity|].
  apply (positions_nearest [red; green; blue] None);
    [discriminate|reflexivity].
Defined.

(** X11. With at most 10001 colours no two stops share a position: the
    positions increase strictly from each stop to the next. *)
Theorem positions_distinct (colors : list ColorRecord.t) (name : option string) :
  colors <> [] -> Z.of_nat (List.length colors) <= 10001 ->
  exists colormap,
    create_colormap_json colors name = inr colormap /\
    forall i j p q, (i < j)%nat ->
      nth_error (map GradientStop.position (Colormap.stops colormap)) i
      = Some p ->
      nth_error (map GradientStop.position (Colormap.stops colormap)) j
      = Some q ->
      float_lt p q.
Proof.
  intros Hne Hmax.
  destruct (create_colormap_json_positions colors name Hne)
    as (cm & Hrun & _ & Hpos).
  exists cm. split; [exact Hrun|]. intros i j p q Hij Hi Hj.
  destruct (Hpos i p Hi) as (Hilt & Hp).
  destruct (Hpos j q Hj) as (Hjlt & Hq).
  set (N := List.length colors) in *.
  assert (Hn : (1 < N)%nat) by lia.
  destruct (stop_position_ten_thousandths _ _ _ Hilt Hp)
    as (ki & Hki & Eki & Hmi & _).
  destruct (stop_position_ten_thousandths _ _ _ Hjlt Hq)
    as (kj & Hkj & Ekj & Hmj & _).
  destruct (Hmi Hn) as (xi & Exi & ->).
  destruct (Hmj Hn) as (xj & Exj & ->).
  assert (Hd : 10 ^ 4 * Z.of_nat (N - 1) < 2 ^ 52).
  { apply Z.le_lt_trans with (10 ^ 4 * 10 ^ 4); [|reflexivity].
    apply Z.mul_le_mono_nonneg_l; [discriminate|].
    change (10 ^ 4) with 10000. lia. }
  apply ten_thousandths_nearest in Exi; [|lia|lia|exact Hd].
  apply ten_thousandths_nearest in Exj; [|lia|lia|exact Hd].
  apply (grid_increasing (Float.ten_thousandths xi) (Float.ten_thousandths xj));
    try assumption; try lia.
  change (10 ^ 4) with 10000 in *.
  set (d := Z.of_nat (N - 1)) in *.
  assert (1 <= d <= 10000) by (unfold d; lia).
  assert (Z.of_nat i + 1 <= Z.of_nat j) by lia.
  nia.
Qed.

Lemma positions_distinct_witness :
  [red; green; blue] <> [] /\
  Z.of_nat (List.length [red; green; blue]) <= 10001 /\
  exists colormap,
    create_colormap_json [red; green; blue] None = inr colormap /\
    forall i j p q, (i < j)%nat ->
      nth_error (map GradientStop.position (Colormap.stops colormap)) i
      = Some p ->
      nth_error (map GradientStop.position (Colormap.stops colormap)) j
      = Some q ->
      float_lt p q.
Proof.
  assert (H : Z.of_nat (List.length [red; green; blue]) <= 10001)
    by (simpl; lia).
  split; [discriminate|]. split; [exact H|].
  apply (positions_distinct [red; green; blue] None); [discriminate|exact H].
Defined.

Lemma stop_position_in_grid num_colors i p :
  (i < num_colors)%nat -> stop_position num_colors i = inr p -> In p grid.
Proof.
  intros Hi Hp.
  destruct (stop_position_ten_thousandths _ _ _ Hi Hp) as (k & Hk & Ek & _).
  unfold grid. apply in_map_iff. exists (Z.to_nat k). split.
  - unfold ten_thousandth. rewrite Z2Nat.id by lia. rewrite Ek. reflexivity.
  - apply in_seq. change (10 ^ 4) with 10000 in Hk. lia.
Qed.

(** X12. Rounded to four places, a position is one of the 10001 floats
    nearest to 0.0000, 0.0001, ..., 1.0000; so with more than 10001 colours
    some stops share a position. *)
Theorem positions_collide (colors : list ColorRecord.t) (name : option string) :
  10001 < Z.of_nat (List.length colors) ->
  exists colormap,
    create_colormap_json colors name = inr colormap /\
    incl (map GradientStop.position (Colormap.stops colormap)) grid /\
    ~ NoDup (map GradientStop.position (Colormap.stops colormap)).
Proof.
  intros Hmany.
  assert (Hne : colors <> []) by (intros ->; simpl in Hmany; lia).
  destruct (create_colormap_json_positions colors name Hne)
    as (cm & Hrun & Hlen & Hpos).
  exists cm. split; [exact Hrun|].
  assert (Hincl : incl (map GradientStop.position (Colormap.stops cm)) grid).
  { intros p Hin. apply In_nth_error in Hin. destruct Hin as (i & Hi).
    destruct (Hpos i p Hi) as (Hlt & Hp).
    exact (stop_position_in_grid _ _ _ Hlt Hp). }
  split; [exact Hincl|]. intros Hnodup.
  pose proof (NoDup_incl_length Hnodup Hincl) as Hle.
  rewrite Hlen in Hle. unfold grid in Hle.
  rewrite length_map, length_seq in Hle. lia.
Qed.

Lemma positions_collide_witness :
  10001 < Z.of_nat (List.length many_colors) /\
  exists colormap,
    create_colormap_json many_colors None = inr colormap /\
    incl (map GradientStop.position (Colormap.stops colormap)) grid /\
    ~ NoDup (map GradientStop.position (Colormap.stops colormap)).
Proof.
  assert (H : 10001 < Z.of_nat (List.length many_colors))
    by (unfold many_colors; rewrite repeat_length; lia).
  split; [exact H|].
  apply (positions_collide many_colors None). exact H.
Defined.

(** X13. Rounding to four places loses nothing when there is nothing to
    lose: if [i / (N - 1)] is a whole number [k] of ten-thousandths, the
    position of stop [i] is the float nearest to [k / 10000]. Five colours
    are at 0.0, 0.25, 0.5, 0.75 and 1.0, and the middle one of an odd
    number of colours is at 0.5. *)
Theorem exact_quotients_kept (colors : list ColorRecord.t)
        (name : option string) (i : nat) (k : Z) :
  (2 <= List.length colors)%nat -> (i < List.length colors)%nat ->
  10 ^ 4 * Z.of_nat i = k * Z.of_nat (List.length colors - 1) ->
  exists colormap p,
    create_colormap_json colors name = inr colormap /\
    nth_error (map GradientStop.position (Colormap.stops colormap)) i = Some p /\
    Float.of_ratio k (10 ^ 4) = inr p.
Proof.
  intros Hn Hi Hk.
  assert (Hne : colors <> []) by (intros ->; simpl in Hn; lia).
  destruct (create_colormap_json_positions colors name Hne)
    as (cm & Hrun & Hlen & Hpos).
  destruct (nth_error (map GradientStop.position (Colormap.stops cm)) i)
    as [p|] eqn:Hp; [|apply nth_error_None in Hp; lia].
  exists cm, p. split; [exact Hrun|]. split; [exact Hp|].
  destruct (Hpos i p Hp) as (_ & Hsp).
  destruct (stop_position_ten_thousandths _ _ _ Hi Hsp)
    as (k' & Hk' & Ek' & Hmany & _).
  destruct (Hmany ltac:(lia)) as (x & Ex & ->).
  set (d := Z.of_nat (List.length colors - 1)) in *.
  assert (Hd : 0 < d) by (unfold d; lia).
  assert (Hik : 0 <= Z.of_nat i <= d) by (unfold d; lia).
  change (10 ^ 4) with 10000 in *.
  assert (Hkr : 0 <= k <= 10000) by nia.
  rewrite (of_ratio_ext (Z.of_nat i) d k 10000) in Ex; try lia.
  rewrite (ten_thousandths_grid k x Hkr Ex) in Ek'. exact Ek'.
Qed.

Lemma exact_quotients_kept_witness :
  (2 <= List.length five_colors)%nat /\ (1 < List.length five_colors)%nat /\
  10 ^ 4 * Z.of_nat 1 = 2500 * Z.of_nat (List.length five_colors - 1) /\
  exists colormap p,
    create_colormap_json five_colors None = inr colormap /\
    nth_error (map GradientStop.position (Colormap.stops colormap)) 1 = Some p /\
    Float.of_ratio 2500 (10 ^ 4) = inr p.
Proof.
  split; [simpl; lia|]. split; [simpl; lia|]. split; [reflexivity|].
  apply (exact_quotients_kept five_colors None 1 2500);
    [simpl; lia|simpl; lia|reflexivity].
Defined.
